(** * scripts/get-changed-tests.mjs

    A shallow embedding of [getChangedTests], the CI helper that diffs the
    current branch against [origin/canary] and sorts the changed test files
    into the development and production buckets, together with the
    properties of it that the specification states.

    Conventions of the embedding:
    - a JavaScript string is a [string], read as its sequence of code units;
      the development covers the Latin-1 range, in which the line terminators
      of the regular expression are LF and CR and the white space removed by
      [trim] is TAB, LF, VT, FF, CR, SP and NBSP;
    - everything the script asks of its surroundings (process environment,
      event file, JSON parser, git commands, file system) is a field of
      [world]; each git command line is run at most once, so its outcome is
      a function of the command line, and the file system is not touched
      by anyone else while the loop checks it;
    - an [await]ed effect is a computation in the monad [M], which records
      the external actions in order and either returns or throws. *)

From Stdlib Require Import String Ascii List Bool QArith.
From ExtLib Require Import Structures.Monad Structures.MonadExc.
Import ListNotations.
Import MonadNotation.
Local Close Scope Q_scope.
Local Open Scope nat_scope.
Local Open Scope monad_scope.
Local Open Scope string_scope.
Local Open Scope list_scope.

Set Implicit Arguments.

(** ** Strings *)

Module Str.

(** [s.startsWith(p)] *)
Definition startsWith (s p : string) : bool := String.prefix p s.

(** [s.includes(t)]: [t] occurs in [s] at some position. *)
Fixpoint includes (s t : string) : bool :=
  String.prefix t s ||
  match s with
  | EmptyString => false
  | String _ s' => includes s' t
  end.

(** White space and line terminators stripped by [String.prototype.trim]. *)
Definition is_white_space (c : ascii) : bool :=
  match nat_of_ascii c with
  | 9 | 10 | 11 | 12 | 13 | 32 | 160 => true
  | _ => false
  end.

Fixpoint trimStart (s : string) : string :=
  match s with
  | EmptyString => EmptyString
  | String c s' => if is_white_space c then trimStart s' else s
  end.

Fixpoint trimEnd (s : string) : string :=
  match s with
  | EmptyString => EmptyString
  | String c s' =>
      match trimEnd s' with
      | EmptyString => if is_white_space c then EmptyString else String c EmptyString
      | r => String c r
      end
  end.

(** [s.trim()] *)
Definition trim (s : string) : string := trimEnd (trimStart s).

(** [s.replace(/\\/g, '/')]: every backslash becomes a forward slash. *)
Fixpoint replace_backslashes (s : string) : string :=
  match s with
  | EmptyString => EmptyString
  | String c s' =>
      String (if Ascii.eqb c "\" then "/"%char else c) (replace_backslashes s')
  end.

(** [s.split('\n')]: the pieces between line feeds; never the empty list. *)
Fixpoint split_lines (s : string) : list string :=
  match s with
  | EmptyString => [EmptyString]
  | String c s' =>
      if Ascii.eqb c "010" then EmptyString :: split_lines s'
      else match split_lines s' with
           | [] => [String c EmptyString]
           | piece :: pieces => String c piece :: pieces
           end
  end.

(** Every character of [s] satisfies [p]. *)
Fixpoint all_chars (p : ascii -> bool) (s : string) : bool :=
  match s with
  | EmptyString => true
  | String c s' => p c && all_chars p s'
  end.

End Str.

(** ** Regular expressions

    The fragment of the regular-expression language used by the script and
    by the glob of the specification.  A pattern written [/^r$/] without
    flags matches a string exactly when the whole string is in the language
    of [r]; whether a star is lazy or greedy changes which match is found,
    not whether there is one. *)

Module Re.

Inductive regex : Type :=
| Void                                (* matches nothing *)
| Eps                                 (* the empty string *)
| Class (p : ascii -> bool)           (* one character satisfying [p] *)
| Seq (r1 r2 : regex)
| Alt (r1 r2 : regex)
| Star (r : regex).

(** A literal character. *)
Definition Chr (c : ascii) : regex := Class (Ascii.eqb c).

(** Line terminators, which [.] does not match. *)
Definition is_line_terminator (c : ascii) : bool :=
  Ascii.eqb c "010" || Ascii.eqb c "013".

(** [.] *)
Definition Dot : regex := Class (fun c => negb (is_line_terminator c)).

(** Any character but [c]. *)
Definition Except (c : ascii) : regex := Class (fun x => negb (Ascii.eqb c x)).

(** A literal string. *)
Fixpoint Lit (s : string) : regex :=
  match s with
  | EmptyString => Eps
  | String c s' => Seq (Chr c) (Lit s')
  end.

Fixpoint nullable (r : regex) : bool :=
  match r with
  | Void => false
  | Eps => true
  | Class _ => false
  | Seq r1 r2 => nullable r1 && nullable r2
  | Alt r1 r2 => nullable r1 || nullable r2
  | Star _ => true
  end.

(** Brzozowski derivative of [r] by the character [c]. *)
Fixpoint deriv (c : ascii) (r : regex) : regex :=
  match r with
  | Void => Void
  | Eps => Void
  | Class p => if p c then Eps else Void
  | Seq r1 r2 =>
      if nullable r1 then Alt (Seq (deriv c r1) r2) (deriv c r2)
      else Seq (deriv c r1) r2
  | Alt r1 r2 => Alt (deriv c r1) (deriv c r2)
  | Star r1 => Seq (deriv c r1) (Star r1)
  end.

(** Whole-string match. *)
Fixpoint matches (r : regex) (s : string) : bool :=
  match s with
  | EmptyString => nullable r
  | String c s' => matches (deriv c r) s'
  end.

(** The language of a regular expression, as a relation. *)
Inductive lang : regex -> string -> Prop :=
| lang_eps : lang Eps EmptyString
| lang_class p c : p c = true -> lang (Class p) (String c EmptyString)
| lang_seq r1 r2 s1 s2 : lang r1 s1 -> lang r2 s2 -> lang (Seq r1 r2) (s1 ++ s2)%string
| lang_alt_l r1 r2 s : lang r1 s -> lang (Alt r1 r2) s
| lang_alt_r r1 r2 s : lang r2 s -> lang (Alt r1 r2) s
| lang_star_nil r : lang (Star r) EmptyString
| lang_star_cons r s1 s2 :
    lang r s1 -> lang (Star r) s2 -> lang (Star r) (s1 ++ s2)%string.

End Re.

(** ** JavaScript values

    The values that flow through the script: what [JSON.parse] builds from
    the event file, the strings of the environment and of command output,
    and [undefined].  A number is kept as the rational it denotes; the
    script only tests it for zero. *)

#[local] Unset Elimination Schemes.
Inductive value : Type :=
| VUndefined
| VNull
| VBool (b : bool)
| VNum (q : Q)
| VStr (s : string)
| VArr (elems : list value)
| VObj (props : list (string * value)).
#[local] Set Elimination Schemes.

(** Truthiness, as tested by [||]. *)
Definition truthy (v : value) : bool :=
  match v with
  | VUndefined | VNull => false
  | VBool b => b
  | VNum q => negb (Qeq_bool q 0)
  | VStr s => negb (String.eqb s "")
  | VArr _ | VObj _ => true
  end.

(** Own property of an object built by [JSON.parse]. *)
Fixpoint own_property (props : list (string * value)) (key : string) : value :=
  match props with
  | [] => VUndefined
  | (k, v) :: rest => if String.eqb k key then v else own_property rest key
  end.

(** ** Effects *)

(** What can be thrown inside the script. *)
Inductive exn : Type :=
| ReadError (path : string)          (* fs.readFile rejected *)
| SyntaxError (text : string)        (* JSON.parse threw *)
| TypeError (what : string)          (* property of null, call of a non-function *)
| ExecaError (command : string).     (* the command could not run or exited non-zero *)

(** Options passed to [execa]. *)
Record execa_options : Type := { shell : bool; stdio : option string }.

Definition EXECA_OPTS : execa_options := {| shell := true; stdio := None |}.
Definition EXECA_OPTS_STDIO : execa_options :=
  {| shell := true; stdio := Some "inherit" |}.

(** What a resolved [execa] promise carries, as far as the script reads it. *)
Record exec_result : Type := { stdout : string; stderr : string }.

(** Arguments of [console.log] and [console.error]. *)
Inductive console_arg : Type :=
| AStr (s : string)
| AErr (err : exn)
| AExecResult (r : exec_result)
| AContext (branchName remoteUrl : value) (isCanary : bool) (commitSha : value)
| AStringified (devTests prodTests : list string).   (* JSON.stringify({devTests, prodTests}, null, 2) *)

(** External actions, in the order the script performs them. *)
Inductive event : Type :=
| ReadFile (path : string)
| Exec (command : string) (options : execa_options)
| Access (file : string)
| ConsoleLog (args : list console_arg)
| ConsoleError (args : list console_arg).

Inductive outcome (A : Type) : Type :=
| Returned (a : A)
| Threw (e : exn).
Arguments Threw {A} e.

(** A computation: the actions performed, then how it ended. *)
Definition M (A : Type) : Type := (list event * outcome A)%type.

Definition M_ret {A} (a : A) : M A := ([], Returned a).

Definition M_bind {A B} (m : M A) (k : A -> M B) : M B :=
  match m with
  | (t, Returned a) => let (t', r) := k a in (t ++ t', r)
  | (t, Threw e) => (t, Threw e)
  end.

Definition M_raise {A} (e : exn) : M A := ([], Threw e).

(** [try { m } catch (e) { h e }] *)
Definition M_catch {A} (m : M A) (h : exn -> M A) : M A :=
  match m with
  | (t, Returned a) => (t, Returned a)
  | (t, Threw e) => let (t', r) := h e in (t ++ t', r)
  end.

#[global] Instance Monad_M : Monad M :=
  {| ret := @M_ret; bind := @M_bind |}.

#[global] Instance MonadExc_M : MonadExc exn M :=
  {| raise := @M_raise; catch := @M_catch |}.

Definition emit (e : event) : M unit := ([e], Returned tt).

Definition trace {A} (m : M A) : list event := fst m.
Definition result_of {A} (m : M A) : outcome A := snd m.

(** ** The surroundings of one run *)

Record world : Type := {
  (** [process.env] *)
  env : string -> option string;
  (** [fs.readFile(path, 'utf8')]; [None] when it rejects *)
  file_text : string -> option string;
  (** [JSON.parse]; [None] when it throws *)
  JSON_parse : string -> option value;
  (** [execa(command, { shell: true, ... })]; [None] when the promise rejects *)
  command_outcome : string -> option exec_result;
  (** [fs.access(path.join(process.cwd(), file), fs.constants.F_OK)] resolves *)
  accessible : string -> bool
}.

Section Script.

Variable w : world.

(** [process.env.NAME] as a value. *)
Definition process_env (name : string) : value :=
  match env w name with
  | Some s => VStr s
  | None => VUndefined
  end.

(** [await fs.readFile(path, 'utf8')]; the empty path names no file. *)
Definition fs_readFile (path : string) : M string :=
  emit (ReadFile path) ;;
  match (if String.eqb path "" then None else file_text w path) with
  | Some text => ret text
  | None => raise (ReadError path)
  end.

Definition JSON_parse_or_throw (text : string) : M value :=
  match JSON_parse w text with
  | Some v => ret v
  | None => raise (SyntaxError text)
  end.

(** [v[key]], for the property names the script reads ([pull_request],
    [head], [ref], [repo], [full_name], [sha]), none of which a built-in
    prototype defines. *)
Definition get_property (v : value) (key : string) : M value :=
  match v with
  | VUndefined | VNull => raise (TypeError key)
  | VObj props => ret (own_property props key)
  | VBool _ | VNum _ | VStr _ | VArr _ => ret VUndefined
  end.

(** [v?.key], for the same property names. *)
Definition optional_chain (v : value) (key : string) : value :=
  match v with
  | VObj props => own_property props key
  | _ => VUndefined
  end.

(** [a || b], where evaluating [b] may run a command. *)
Definition or_else (a : value) (b : M value) : M value :=
  if truthy a then ret a else b.

(** [await execa(command, options)] *)
Definition execa (command : string) (options : execa_options) : M exec_result :=
  emit (Exec command options) ;;
  match command_outcome w command with
  | Some r => ret r
  | None => raise (ExecaError command)
  end.

(** [(await execa(command, EXECA_OPTS)).stdout] *)
Definition execa_stdout (command : string) : M value :=
  r <- execa command EXECA_OPTS ;;
  ret (VStr (stdout r)).

(** [fs.access(...).then(() => true).catch(() => false)] *)
Definition fs_access (file : string) : M bool :=
  emit (Access file) ;;
  ret (accessible w file).

Definition console_log (args : list console_arg) : M unit := emit (ConsoleLog args).
Definition console_error (args : list console_arg) : M unit := emit (ConsoleError args).

(** [v.trim()]: only a string has the method. *)
Definition call_trim (v : value) : M string :=
  match v with
  | VStr s => ret (Str.trim s)
  | _ => raise (TypeError "trim")
  end.

(** [v.includes(needle)] for a string [needle]: a substring test on a
    string, a membership test on an array, a [TypeError] otherwise. *)
Definition call_includes (v : value) (needle : string) : M bool :=
  match v with
  | VStr s => ret (Str.includes s needle)
  | VArr elems =>
      ret (existsb (fun x => match x with VStr s => String.eqb s needle | _ => false end)
             elems)
  | _ => raise (TypeError "includes")
  end.

(** ** The script *)

(** The object [getChangedTests] resolves to.  [commitSha] is [None] when
    the object has no such field. *)
Record ClassificationResult : Type := {
  devTests : list string;
  prodTests : list string;
  commitSha : option value
}.

(** [/^test\/.*?\.test\.(js|ts|tsx)$/] *)
Definition test_file_pattern : Re.regex :=
  Re.Seq (Re.Lit "test/")
    (Re.Seq (Re.Star Re.Dot)
       (Re.Seq (Re.Lit ".test.")
          (Re.Alt (Re.Lit "js") (Re.Alt (Re.Lit "ts") (Re.Lit "tsx"))))).

(** Lines 19-24: the [pull_request] object of the event file, or [{}]. *)
Definition read_eventData : M value :=
  catch
    (text <- fs_readFile (match env w "GITHUB_EVENT_PATH" with
                          | Some path => path
                          | None => ""
                          end) ;;
     parsed <- JSON_parse_or_throw text ;;
     pull_request <- get_property parsed "pull_request" ;;
     ret (if truthy pull_request then pull_request else VObj []))
    (fun _ => ret (VObj [])).

(** Lines 26-29 *)
Definition resolve_branchName (eventData : value) : M value :=
  or_else (optional_chain (optional_chain eventData "head") "ref")
    (or_else (process_env "GITHUB_REF_NAME")
       (execa_stdout "git rev-parse --abbrev-ref HEAD")).

(** Lines 31-34 *)
Definition resolve_remoteUrl (eventData : value) : M value :=
  or_else
    (optional_chain (optional_chain (optional_chain eventData "head") "repo") "full_name")
    (or_else (process_env "GITHUB_REPOSITORY")
       (execa_stdout "git remote get-url origin")).

(** Lines 36-39 *)
Definition resolve_commitSha (eventData : value) : M value :=
  or_else (optional_chain (optional_chain eventData "head") "sha")
    (or_else (process_env "GITHUB_SHA")
       (execa_stdout "git rev-parse HEAD")).

(** Lines 41-42: [&&] evaluates its right operand only when the left holds. *)
Definition compute_isCanary (branchName remoteUrl : value) : M bool :=
  trimmed <- call_trim branchName ;;
  if String.eqb trimmed "canary" then call_includes remoteUrl "vercel/next.js"
  else ret false.

(** Lines 49-55 *)
Definition fetch_canary : M unit :=
  catch
    (execa "git remote set-branches --add origin canary" EXECA_OPTS_STDIO ;;
     execa "git fetch origin canary --depth=20" EXECA_OPTS_STDIO ;;
     ret tt)
    (fun err =>
       remotes <- execa "git remote -v" EXECA_OPTS_STDIO ;;
       console_error [AExecResult remotes] ;;
       console_error [AStr "Failed to fetch origin/canary"; AErr err]).

(** Lines 57-63 *)
Definition diff_canary : M exec_result :=
  catch
    (execa "git diff origin/canary --name-only" EXECA_OPTS)
    (fun err =>
       console_error [AErr err] ;;
       ret {| stdout := ""; stderr := "" |}).

(** Lines 88-97: what one existing-or-not file does to the two arrays. *)
Definition bucket (fileExists : bool) (file : string)
    (tests : list string * list string) : list string * list string :=
  let (devTests, prodTests) := tests in
  if fileExists && Re.matches test_file_pattern file then
    if Str.startsWith file "test/e2e/" then (devTests ++ [file], prodTests ++ [file])
    else if Str.startsWith file "test/prod" then (devTests, prodTests ++ [file])
    else if Str.startsWith file "test/development" then (devTests ++ [file], prodTests)
    else (devTests, prodTests)
  else (devTests, prodTests).

(** Lines 80-98: the loop over [changedFiles]. *)
Fixpoint for_changedFiles (changedFiles : list string)
    (tests : list string * list string) : M (list string * list string) :=
  match changedFiles with
  | [] => ret tests
  | file :: rest =>
      let file := Str.replace_backslashes file in
      fileExists <- fs_access file ;;
      for_changedFiles rest (bucket fileExists file tests)
  end.

Definition newline : string := String "010" EmptyString.

(** Lines 11-113 *)
Definition getChangedTests : M ClassificationResult :=
  eventData <- read_eventData ;;
  branchName <- resolve_branchName eventData ;;
  remoteUrl <- resolve_remoteUrl eventData ;;
  commitSha <- resolve_commitSha eventData ;;
  isCanary <- compute_isCanary branchName remoteUrl ;;
  if isCanary then
    console_log [AStr "Skipping flake detection for canary"] ;;
    ret {| devTests := []; prodTests := []; commitSha := None |}
  else
    fetch_canary ;;
    changesResult <- diff_canary ;;
    console_log
      [AContext branchName remoteUrl isCanary commitSha;
       AStr (newline ++ "git diff:" ++ newline ++ stderr changesResult
               ++ newline ++ stdout changesResult)%string] ;;
    let changedFiles := Str.split_lines (stdout changesResult) in
    tests <- for_changedFiles changedFiles ([], []) ;;
    console_log [AStr "Detected tests:"; AStringified (fst tests) (snd tests)] ;;
    ret {| devTests := fst tests; prodTests := snd tests; commitSha := Some commitSha |}.

End Script.

(** ** Notions used to state the properties *)

(** The three values resolved before anything else is done. *)
Definition resolve_context (w : world) : M (value * value * value) :=
  eventData <- read_eventData w ;;
  branchName <- resolve_branchName w eventData ;;
  remoteUrl <- resolve_remoteUrl w eventData ;;
  commitSha <- resolve_commitSha w eventData ;;
  ret (branchName, remoteUrl, commitSha).

(** The path handed to [fs.readFile]. *)
Definition event_path (w : world) : string :=
  match env w "GITHUB_EVENT_PATH" with
  | Some path => path
  | None => ""
  end.

(** The payload the script ends up with, as a function of the world. *)
Definition eventData_of (w : world) : value :=
  if String.eqb (event_path w) "" then VObj []
  else
    match file_text w (event_path w) with
    | None => VObj []
    | Some text =>
        match JSON_parse w text with
        | Some (VObj props) =>
            if truthy (own_property props "pull_request")
            then own_property props "pull_request" else VObj []
        | _ => VObj []
        end
    end.

Definition payload_ref (eventData : value) : value :=
  optional_chain (optional_chain eventData "head") "ref".
Definition payload_full_name (eventData : value) : value :=
  optional_chain (optional_chain (optional_chain eventData "head") "repo") "full_name".
Definition payload_sha (eventData : value) : value :=
  optional_chain (optional_chain eventData "head") "sha".

(** First non-empty value of an ordered chain of candidates. *)
Definition first_nonempty (candidates : list value) : option value :=
  find truthy candidates.

(** The end of a chain: the first non-empty candidate, else the output of
    the live command, which throws when the command fails. *)
Definition chain_outcome (w : world) (candidates : list value) (command : string)
  : outcome value :=
  match first_nonempty candidates with
  | Some v => Returned v
  | None =>
      match command_outcome w command with
      | Some r => Returned (VStr (stdout r))
      | None => Threw (ExecaError command)
      end
  end.

(** A value is usable where the script expects a string or nothing. *)
Definition string_or_falsy (v : value) : bool :=
  match v with
  | VStr _ => true
  | _ => negb (truthy v)
  end.


Definition diff_command : string := "git diff origin/canary --name-only".

(** The diff output the classification works on: empty when the command fails. *)
Definition changesResult_of (w : world) : exec_result :=
  match command_outcome w diff_command with
  | Some r => r
  | None => {| stdout := ""; stderr := "" |}
  end.

(** The changed paths in diff order, each with its slashes normalised. *)
Definition changedFiles_of (w : world) : list string :=
  map Str.replace_backslashes (Str.split_lines (stdout (changesResult_of w))).

(** The bucketing policy: the first matching rule wins. *)
Inductive bucket_rule : Type := Both | ProdOnly | DevOnly | Neither.

Definition rule_of (file : string) : bucket_rule :=
  if Str.startsWith file "test/e2e/" then Both
  else if Str.startsWith file "test/prod" then ProdOnly
  else if Str.startsWith file "test/development" then DevOnly
  else Neither.

Definition to_dev (file : string) : bool :=
  match rule_of file with Both | DevOnly => true | _ => false end.
Definition to_prod (file : string) : bool :=
  match rule_of file with Both | ProdOnly => true | _ => false end.

(** A changed path that is still on disk and has the shape of a test file. *)
Definition candidate (w : world) (file : string) : bool :=
  accessible w file && Re.matches test_file_pattern file.

(** The glob [test/**/*.test.{js,ts,tsx}] of the specification, read
    textually: [**/] is any number of directory segments, [*] any run of
    characters other than the separator. *)
Definition spec_test_glob : Re.regex :=
  Re.Seq (Re.Lit "test/")
    (Re.Seq (Re.Star (Re.Seq (Re.Star (Re.Except "/")) (Re.Chr "/")))
       (Re.Seq (Re.Star (Re.Except "/"))
          (Re.Seq (Re.Lit ".test.")
             (Re.Alt (Re.Lit "js") (Re.Alt (Re.Lit "ts") (Re.Lit "tsx")))))).

(** Two spellings of one text: [spelled] is [raw] with some, all or none
    of its backslashes written as forward slashes, and nothing else
    changed.  Said character by character, without the script's [replace]. *)
Fixpoint same_but_for_backslashes (raw spelled : string) : bool :=
  match raw, spelled with
  | EmptyString, EmptyString => true
  | String a raw', String b spelled' =>
      (Ascii.eqb a b || Ascii.eqb a "\" && Ascii.eqb b "/")
      && same_but_for_backslashes raw' spelled'
  | _, _ => false
  end.

(** The same world, with another outcome of the diff command. *)
Definition with_diff (w : world) (r : option exec_result) : world :=
  {| env := env w;
     file_text := file_text w;
     JSON_parse := JSON_parse w;
     command_outcome := fun command =>
       if String.eqb command diff_command then r else command_outcome w command;
     accessible := accessible w |}.

(** Events that belong to context resolution or to the canary notice. *)
Definition before_fetch (e : event) : bool :=
  match e with
  | ReadFile _ => true
  | Exec command _ =>
      existsb (String.eqb command)
        ["git rev-parse --abbrev-ref HEAD"; "git remote get-url origin";
         "git rev-parse HEAD"]
  | ConsoleLog _ => true
  | Access _ | ConsoleError _ => false
  end.

Definition returns {A} (m : M A) : Prop := exists a, result_of m = Returned a.

(** The run executed [command]. *)
Definition ran {A} (command : string) (m : M A) : bool :=
  existsb (fun e => match e with
                    | Exec c _ => String.eqb c command
                    | _ => false
                    end) (trace m).

Definition succeeds (w : world) (command : string) : bool :=
  match command_outcome w command with
  | Some _ => true
  | None => false
  end.

(** The fetch goes through, or its failure can be reported: the two
    commands of the [try] block succeed, or [git remote -v] does. *)
Definition fetch_or_report (w : world) : bool :=
  succeeds w "git remote set-branches --add origin canary"
    && succeeds w "git fetch origin canary --depth=20"
  || succeeds w "git remote -v".

(** A value of the chain can be had without a failing command. *)
Definition resolvable (w : world) (payload : value) (name command : string) : bool :=
  truthy payload || truthy (process_env w name) || succeeds w command.

(** ** Sample runs *)

Module Sample.

Definition lines (ls : list string) : string := String.concat newline ls.

Definition event_json : value :=
  VObj [("action", VStr "synchronize");
        ("pull_request",
          VObj [("number", VNum (inject_Z 4242));
                ("head",
                  VObj [("ref", VStr "fix/flaky-test");
                        ("sha", VStr "0a1b2c3d");
                        ("repo", VObj [("full_name", VStr "contributor/next.js")])])])].

(** A pull-request run on a fork: the fetch fails for lack of network, the
    diff lists its paths, one of them twice and one of them deleted. *)
Definition pull_request_run : world :=
  {| env := fun name =>
       if String.eqb name "GITHUB_EVENT_PATH" then Some "/github/workflow/event.json"
       else if String.eqb name "GITHUB_REF_NAME" then Some "4242/merge"
       else if String.eqb name "GITHUB_REPOSITORY" then Some "vercel/next.js"
       else if String.eqb name "GITHUB_SHA" then Some "ffffffff"
       else None;
     file_text := fun path =>
       if String.eqb path "/github/workflow/event.json" then Some "<event payload>"
       else None;
     JSON_parse := fun text =>
       if String.eqb text "<event payload>" then Some event_json else None;
     command_outcome := fun command =>
       if String.eqb command diff_command then
         Some {| stdout :=
                   lines ["packages/next/src/server/app-render.tsx";
                          "test/e2e/app-dir/foo.test.ts";
                          "test\e2e\app-dir\foo.test.ts";
                          "test/production/export/bar.test.js";
                          "test/development/basic/baz.test.tsx";
                          "test/developments/hmr/y.test.ts";
                          "test/unit/parse.test.ts";
                          "test/e2e/removed.test.ts";
                          "test/e2e/app-dir/foo.test.ts.snap"];
                 stderr := "" |}
       else if String.eqb command "git fetch origin canary --depth=20" then None
       else Some {| stdout := ""; stderr := "" |};
     accessible := fun file => negb (String.eqb file "test/e2e/removed.test.ts") |}.

(** What that run resolves to. *)
Definition pull_request_result : ClassificationResult :=
  {| devTests := ["test/e2e/app-dir/foo.test.ts";
                  "test/e2e/app-dir/foo.test.ts";
                  "test/development/basic/baz.test.tsx";
                  "test/developments/hmr/y.test.ts"];
     prodTests := ["test/e2e/app-dir/foo.test.ts";
                   "test/e2e/app-dir/foo.test.ts";
                   "test/production/export/bar.test.js"];
     commitSha := Some (VStr "0a1b2c3d") |}.

(** The paths the specification uses as examples, all present on disk. *)
Definition examples_run : world :=
  {| env := fun name =>
       if String.eqb name "GITHUB_REF_NAME" then Some "examples"
       else if String.eqb name "GITHUB_REPOSITORY" then Some "contributor/next.js"
       else if String.eqb name "GITHUB_SHA" then Some "76543210"
       else None;
     file_text := fun _ => None;
     JSON_parse := fun _ => None;
     command_outcome := fun command =>
       if String.eqb command diff_command then
         Some {| stdout :=
                   lines ["test/e2e/foo.test.ts";
                          "test/prod/bar.test.js";
                          "test/development/baz.test.tsx";
                          "test/unit/qux.test.ts";
                          "test/production/x.test.ts";
                          "test/developments/y.test.ts";
                          "test\e2e\win.test.ts"];
                 stderr := "" |}
       else Some {| stdout := ""; stderr := "" |};
     accessible := fun _ => true |}.

(** A push to the upstream baseline branch, in a checkout without git. *)
Definition canary_run : world :=
  {| env := fun name =>
       if String.eqb name "GITHUB_REF_NAME" then Some "canary"
       else if String.eqb name "GITHUB_REPOSITORY" then Some "vercel/next.js"
       else if String.eqb name "GITHUB_SHA" then Some "1234abcd"
       else None;
     file_text := fun _ => None;
     JSON_parse := fun _ => None;
     command_outcome := fun _ => None;
     accessible := fun _ => true |}.

(** A local run outside any checkout: no CI variables, every git command fails. *)
Definition no_git_run : world :=
  {| env := fun _ => None;
     file_text := fun _ => None;
     JSON_parse := fun _ => None;
     command_outcome := fun _ => None;
     accessible := fun _ => false |}.

(** A CI run on a branch whose working directory is not a git checkout:
    the context comes from the environment, every git command fails. *)
Definition not_a_checkout_run : world :=
  {| env := fun name =>
       if String.eqb name "GITHUB_REF_NAME" then Some "feature"
       else if String.eqb name "GITHUB_REPOSITORY" then Some "contributor/next.js"
       else if String.eqb name "GITHUB_SHA" then Some "89abcdef"
       else None;
     file_text := fun _ => None;
     JSON_parse := fun _ => None;
     command_outcome := fun _ => None;
     accessible := fun _ => false |}.

(** A local run on a feature branch: no CI variables, git answers, the
    fetch fails and so does the diff. *)
Definition offline_run : world :=
  {| env := fun _ => None;
     file_text := fun _ => None;
     JSON_parse := fun _ => None;
     command_outcome := fun command =>
       if String.eqb command "git rev-parse --abbrev-ref HEAD"
       then Some {| stdout := "feature"; stderr := "" |}
       else if String.eqb command "git remote get-url origin"
       then Some {| stdout := "git@github.com:contributor/next.js.git"; stderr := "" |}
       else if String.eqb command "git rev-parse HEAD"
       then Some {| stdout := "89abcdef"; stderr := "" |}
       else if String.eqb command "git remote -v"
       then Some {| stdout := ""; stderr := "" |}
       else None;
     accessible := fun _ => true |}.

End Sample.

(** ** Notions used to state the further properties *)

(** The files whose existence was checked, in the order of the checks. *)
Definition accessed (t : list event) : list string :=
  flat_map (fun e => match e with Access file => [file] | _ => [] end) t.

Definition returnsb {A} (m : M A) : bool :=
  match result_of m with
  | Returned _ => true
  | Threw _ => false
  end.

(** The run resolves its context and finds that it is not on the upstream
    baseline: it gets past line 47, to the fetch. *)
Definition reaches_fetch (w : world) : bool :=
  match resolve_context w with
  | (_, Returned (branchName, remoteUrl, _)) =>
      match result_of (compute_isCanary branchName remoteUrl) with
      | Returned false => true
      | _ => false
      end
  | (_, Threw _) => false
  end.

(** What one fallback chain runs: its command, when both candidates are empty. *)
Definition chain_trace (w : world) (payload : value) (name command : string)
  : list event :=
  if truthy payload || truthy (process_env w name) then []
  else [Exec command EXECA_OPTS].

Definition is_string (v : value) : bool :=
  match v with
  | VStr _ => true
  | _ => false
  end.

Definition no_backslash (s : string) : bool :=
  Str.all_chars (fun c => negb (Ascii.eqb c "\")) s.

Definition no_line_feed (s : string) : bool :=
  Str.all_chars (fun c => negb (Ascii.eqb c "010")) s.

(** ** Sample runs at the edges *)

Module Edge.

(** A pull-request event whose [head.ref] is a number, not a string. *)
Definition numeric_ref_run : world :=
  {| env := fun name =>
       if String.eqb name "GITHUB_EVENT_PATH" then Some "/github/workflow/event.json"
       else if String.eqb name "GITHUB_REPOSITORY" then Some "contributor/next.js"
       else if String.eqb name "GITHUB_SHA" then Some "13579bdf"
       else None;
     file_text := fun path =>
       if String.eqb path "/github/workflow/event.json" then Some "<event payload>"
       else None;
     JSON_parse := fun text =>
       if String.eqb text "<event payload>"
       then Some (VObj [("pull_request",
                          VObj [("head", VObj [("ref", VNum (inject_Z 7))])])])
       else None;
     command_outcome := fun _ => Some {| stdout := ""; stderr := "" |};
     accessible := fun _ => true |}.


End Edge.

(** * Properties *)

(** ** The matcher decides the language *)

Module ReFacts.
Import Re.

Lemma append_empty (s1 s2 : string) :
  (s1 ++ s2)%string = EmptyString -> s1 = EmptyString /\ s2 = EmptyString.
Proof.
  destruct s1; simpl; intros H; [split; [reflexivity | exact H] | discriminate H].
Qed.

Lemma append_assoc (s1 s2 s3 : string) :
  ((s1 ++ s2) ++ s3)%string = (s1 ++ (s2 ++ s3))%string.
Proof.
  induction s1 as [|c s1 IH]; simpl; [reflexivity | now rewrite IH].
Qed.

Lemma append_empty_r (s : string) : (s ++ "")%string = s.
Proof.
  induction s as [|c s IH]; simpl; [reflexivity | now rewrite IH].
Qed.

Lemma nullable_sound r : nullable r = true -> lang r EmptyString.
Proof.
  induction r as [| | p | r1 IH1 r2 IH2 | r1 IH1 r2 IH2 | r IH]; simpl; intros H.
  - discriminate H.
  - constructor.
  - discriminate H.
  - apply andb_prop in H as [H1 H2].
    change EmptyString with (EmptyString ++ EmptyString)%string.
    constructor; auto.
  - apply orb_prop in H as [H1 | H2]; [apply lang_alt_l | apply lang_alt_r]; auto.
  - constructor.
Qed.

Lemma nullable_complete r s : lang r s -> s = EmptyString -> nullable r = true.
Proof.
  induction 1 as [ | p c Hp | r1 r2 s1 s2 H1 IH1 H2 IH2 | r1 r2 s H IH
                 | r1 r2 s H IH | r | r s1 s2 H1 IH1 H2 IH2 ]; simpl; intros E;
    try reflexivity.
  - discriminate E.
  - apply append_empty in E as [E1 E2]. now rewrite IH1, IH2.
  - now rewrite IH.
  - rewrite IH by assumption. apply orb_true_r.
Qed.

Lemma deriv_sound c r : forall s, lang (deriv c r) s -> lang r (String c s).
Proof.
  induction r as [| | p | r1 IH1 r2 IH2 | r1 IH1 r2 IH2 | r IH]; simpl; intros s H.
  - inversion H.
  - inversion H.
  - destruct (p c) eqn:Hp; inversion H; subst. now constructor.
  - assert (Hseq : forall t, lang (Seq (deriv c r1) r2) t -> lang (Seq r1 r2) (String c t)).
    { intros t Ht. inversion Ht as [ | | ra rb s1 s2 Ha Hb | | | | ]; subst.
      change (String c (s1 ++ s2)) with (String c s1 ++ s2)%string.
      constructor; auto. }
    destruct (nullable r1) eqn:N.
    + inversion H as [ | | | ra rb t Ht | ra rb t Ht | | ]; subst.
      * now apply Hseq.
      * change (String c s) with (EmptyString ++ String c s)%string.
        constructor; [now apply nullable_sound | now apply IH2].
    + now apply Hseq.
  - inversion H; subst; [apply lang_alt_l | apply lang_alt_r]; auto.
  - inversion H as [ | | ra rb s1 s2 Ha Hb | | | | ]; subst.
    change (String c (s1 ++ s2)) with (String c s1 ++ s2)%string.
    apply lang_star_cons; auto.
Qed.

Lemma deriv_complete c r cs :
  lang r cs -> forall s, cs = String c s -> lang (deriv c r) s.
Proof.
  induction 1 as [ | p a Hp | r1 r2 s1 s2 H1 IH1 H2 IH2 | r1 r2 t H IH
                 | r1 r2 t H IH | r | r s1 s2 H1 IH1 H2 IH2 ]; intros s E; simpl.
  - discriminate E.
  - injection E as -> <-. rewrite Hp. constructor.
  - destruct s1 as [|a s1]; simpl in E.
    + rewrite (nullable_complete H1 eq_refl). apply lang_alt_r. now apply IH2.
    + injection E as -> <-.
      assert (Hs : lang (Seq (deriv c r1) r2) (s1 ++ s2)%string)
        by (constructor; [now apply IH1 | assumption]).
      destruct (nullable r1); [now apply lang_alt_l | assumption].
  - apply lang_alt_l. now apply IH.
  - apply lang_alt_r. now apply IH.
  - discriminate E.
  - destruct s1 as [|a s1]; simpl in E.
    + now apply IH2.
    + injection E as -> <-. constructor; [now apply IH1 | assumption].
Qed.

(** [matches] computes membership in the language. *)
Lemma matches_lang r s : matches r s = true <-> lang r s.
Proof.
  revert r. induction s as [|c s IH]; intros r; simpl.
  - split; [apply nullable_sound | intros H; now apply (nullable_complete H)].
  - rewrite IH. split; [apply deriv_sound | intros H; now apply (deriv_complete H)].
Qed.

Lemma lang_Lit s : lang (Lit s) s.
Proof.
  induction s as [|c s IH]; simpl; [constructor |].
  change (String c s) with (String c EmptyString ++ s)%string.
  constructor; [constructor; apply Ascii.eqb_refl | exact IH].
Qed.

Lemma lang_Lit_inv s t : lang (Lit s) t -> t = s.
Proof.
  revert t. induction s as [|c s IH]; simpl; intros t H.
  - now inversion H.
  - inversion H as [ | | r1 r2 s1 s2 H1 H2 | | | | ]; subst.
    inversion H1 as [ | p a Hp | | | | | ]; subst.
    apply Ascii.eqb_eq in Hp. subst a. simpl. f_equal. now apply IH.
Qed.

End ReFacts.

(** ** The pattern and the glob *)

Module GlobFacts.
Import Re ReFacts.

Lemma star_inv r s :
  lang (Star r) s ->
  s = EmptyString \/
  exists s1 s2, s = (s1 ++ s2)%string /\ lang r s1 /\ lang (Star r) s2.
Proof.
  intros H. inversion H as [ | | | | | r' | r' s1 s2 H1 H2 ]; subst.
  - now left.
  - right. now exists s1, s2.
Qed.

(** Any string splits into directory segments followed by a base name. *)
Lemma segments_then_base s :
  exists dirs base,
    s = (dirs ++ base)%string /\
    lang (Star (Seq (Star (Except "/")) (Chr "/"))) dirs /\
    lang (Star (Except "/")) base.
Proof.
  induction s as [|c s (dirs & base & -> & Hd & Hb)].
  - exists EmptyString, EmptyString.
    split; [reflexivity |]. split; constructor.
  - destruct (Ascii.eqb "/" c) eqn:Ec.
    + apply Ascii.eqb_eq in Ec. subst c.
      exists (String "/" dirs), base.
        split; [reflexivity |]. split; [| assumption].
      change (String "/" dirs) with ((EmptyString ++ String "/" EmptyString) ++ dirs)%string.
      apply lang_star_cons; [|assumption].
      constructor; [constructor | constructor; reflexivity].
    + assert (Hc : lang (Except "/") (String c EmptyString))
        by (constructor; now rewrite Ec).
      destruct (star_inv Hd) as [-> | (s1 & s2 & -> & H1 & H2)].
      * exists EmptyString, (String c base).
        split; [reflexivity |]. split; [constructor |].
        change (String c base) with (String c EmptyString ++ base)%string.
        now apply lang_star_cons.
      * exists (String c s1 ++ s2)%string, base.
        split; [reflexivity |]. split; [| assumption].
        apply lang_star_cons; [|assumption].
        inversion H1 as [ | | ra rb n sep Hn Hsep | | | | ]; subst.
        change (String c (n ++ sep)) with (String c n ++ sep)%string.
        constructor; [|assumption].
        change (String c n) with (String c EmptyString ++ n)%string.
        now apply lang_star_cons.
Qed.

Lemma pattern_lang_glob file :
  lang test_file_pattern file -> lang spec_test_glob file.
Proof.
  unfold test_file_pattern, spec_test_glob. intros H.
  inversion H as [ | | r1 r2 s1 s2 H1 H2 | | | | ]; subst.
  inversion H2 as [ | | r1 r2 mid rest Hmid Hrest | | | | ]; subst.
  destruct (segments_then_base mid) as (dirs & base & -> & Hd & Hb).
  rewrite append_assoc.
  constructor; [assumption |].
  constructor; [assumption |].
  constructor; assumption.
Qed.

Lemma pattern_matches_glob file :
  matches test_file_pattern file = true -> matches spec_test_glob file = true.
Proof.
  rewrite !matches_lang. apply pattern_lang_glob.
Qed.

Lemma lang_star_class p s :
  lang (Star (Class p)) s <-> Str.all_chars p s = true.
Proof.
  split.
  - intros H. remember (Star (Class p)) as r eqn:Er.
    induction H as [ | | | | | r' | r' s1 s2 H1 _ H2 IH2 ]; try discriminate Er.
    + reflexivity.
    + injection Er as ->.
      inversion H1 as [ | q c Hc | | | | | ]; subst.
      simpl. now rewrite Hc, IH2.
  - induction s as [|c s IH]; simpl; intros H; [constructor |].
    apply andb_prop in H as [Hc Hs].
    change (String c s) with (String c EmptyString ++ s)%string.
    apply lang_star_cons; [now constructor | now apply IH].
Qed.

(** The pattern in plain terms: "test/", then anything on one line, then
    ".test." and one of the three extensions. *)
Lemma pattern_shape file :
  matches test_file_pattern file = true <->
  exists middle extension,
    file = ("test/" ++ middle ++ ".test." ++ extension)%string /\
    Str.all_chars (fun c => negb (is_line_terminator c)) middle = true /\
    (extension = "js" \/ extension = "ts" \/ extension = "tsx").
Proof.
  rewrite matches_lang. unfold test_file_pattern. split.
  - intros H.
    inversion H as [ | | r1 r2 s1 s2 H1 H2 | | | | ]; subst.
    inversion H2 as [ | | r1 r2 middle s3 Hm H3 | | | | ]; subst.
    inversion H3 as [ | | r1 r2 s4 extension H4 H5 | | | | ]; subst.
    apply (lang_Lit_inv "test/") in H1. apply (lang_Lit_inv ".test.") in H4.
    subst s1 s4.
    exists middle, extension. split; [reflexivity |].
    split; [now apply lang_star_class |].
    inversion H5 as [ | | | r1 r2 s Hjs | r1 r2 s Hrest | | ]; subst.
    + left. now apply (lang_Lit_inv "js").
    + right.
      inversion Hrest as [ | | | r1 r2 s Hts | r1 r2 s Htsx | | ]; subst.
      * left. now apply (lang_Lit_inv "ts").
      * right. now apply (lang_Lit_inv "tsx").
  - intros (middle & extension & -> & Hm & Hext).
    constructor; [apply lang_Lit |].
    constructor; [now apply lang_star_class |].
    constructor; [apply lang_Lit |].
    destruct Hext as [-> | [-> | ->]].
    + apply lang_alt_l, lang_Lit.
    + apply lang_alt_r, lang_alt_l, lang_Lit.
    + apply lang_alt_r, lang_alt_r, lang_Lit.
Qed.

End GlobFacts.

(** ** Strings *)

Module StrFacts.
Import Str.

Lemma replace_backslashes_idem s :
  replace_backslashes (replace_backslashes s) = replace_backslashes s.
Proof.
  induction s as [|c s IH]; simpl; [reflexivity |].
  rewrite IH. f_equal.
  destruct (Ascii.eqb c "\") eqn:E; [reflexivity | now rewrite E].
Qed.

(** Replacing backslashes neither adds nor removes a line feed. *)
Lemma split_lines_replace s :
  split_lines (replace_backslashes s) = map replace_backslashes (split_lines s).
Proof.
  induction s as [|c s IH]; simpl; [reflexivity |].
  destruct (Ascii.eqb c "\") eqn:E.
  - apply Ascii.eqb_eq in E. subst c. simpl. rewrite IH.
    destruct (split_lines s); reflexivity.
  - destruct (Ascii.eqb c "010") eqn:N; rewrite IH.
    + reflexivity.
    + destruct (split_lines s); simpl; now rewrite ?E.
Qed.

Lemma map_replace_split_lines s :
  map replace_backslashes (split_lines (replace_backslashes s))
  = map replace_backslashes (split_lines s).
Proof.
  rewrite split_lines_replace, map_map.
  apply map_ext. intros x. apply replace_backslashes_idem.
Qed.

(** Two prefixes of one string are prefixes of each other, one way round. *)
Lemma prefix_comparable p : forall q s,
  String.prefix p s = true -> String.prefix q s = true ->
  String.prefix p q = true \/ String.prefix q p = true.
Proof.
  induction p as [|a p IH]; intros q s Hp Hq; [left; now destruct q |].
  destruct q as [|b q]; [right; reflexivity |].
  destruct s as [|c s]; [discriminate Hp |].
  simpl in Hp, Hq |- *.
  destruct (ascii_dec a c) as [-> |]; [| discriminate Hp].
  destruct (ascii_dec b c) as [-> |]; [| discriminate Hq].
  destruct (ascii_dec c c) as [_ | N]; [| now elim N].
  now apply (IH q s).
Qed.

Lemma startsWith_exclusive s p q :
  String.prefix p q = false -> String.prefix q p = false ->
  startsWith s p = true -> startsWith s q = false.
Proof.
  unfold startsWith. intros Hpq Hqp Hp.
  destruct (String.prefix q s) eqn:Hq; [| reflexivity].
  destruct (prefix_comparable _ _ _ Hp Hq) as [H | H]; congruence.
Qed.

End StrFacts.

(** ** Running the script *)

Ltac run_monad :=
  cbn [bind ret raise catch Monad_M MonadExc_M M_bind M_ret M_raise M_catch app].

Lemma bucket_eq fileExists file devTests prodTests :
  bucket fileExists file (devTests, prodTests) =
  (devTests ++
     (if fileExists && Re.matches test_file_pattern file && to_dev file
      then [file] else []),
   prodTests ++
     (if fileExists && Re.matches test_file_pattern file && to_prod file
      then [file] else [])).
Proof.
  unfold bucket, to_dev, to_prod, rule_of.
  destruct (fileExists && Re.matches test_file_pattern file); cbn [andb].
  - destruct (Str.startsWith file "test/e2e/"); [reflexivity |].
    destruct (Str.startsWith file "test/prod"); [now rewrite app_nil_r |].
    destruct (Str.startsWith file "test/development"); now rewrite ?app_nil_r.
  - now rewrite !app_nil_r.
Qed.

Section Run.

Variable w : world.

(** The loop checks every path once, in order, and keeps what [bucket] keeps. *)
Lemma for_changedFiles_run changedFiles : forall devTests prodTests,
  for_changedFiles w changedFiles (devTests, prodTests) =
  (map Access (map Str.replace_backslashes changedFiles),
   Returned
     (devTests ++ filter (fun f => candidate w f && to_dev f)
                    (map Str.replace_backslashes changedFiles),
      prodTests ++ filter (fun f => candidate w f && to_prod f)
                     (map Str.replace_backslashes changedFiles))).
Proof.
  induction changedFiles as [|file rest IH]; intros d p.
  - cbn. now rewrite !app_nil_r.
  - cbn [for_changedFiles map filter].
    unfold fs_access, emit. run_monad.
    rewrite bucket_eq, IH. unfold candidate.
    do 3 f_equal.
    + destruct (_ && _ && to_dev _); cbn [app]; now rewrite <- app_assoc.
    + destruct (_ && _ && to_prod _); cbn [app]; now rewrite <- app_assoc.
Qed.

(** Reading the event file never throws. *)
Lemma read_eventData_run :
  read_eventData w = ([ReadFile (event_path w)], Returned (eventData_of w)).
Proof.
  unfold read_eventData, eventData_of, fs_readFile, JSON_parse_or_throw, emit.
  fold (event_path w).
  destruct (String.eqb (event_path w) ""); run_monad; [reflexivity |].
  destruct (file_text w (event_path w)) as [text|]; run_monad; [| reflexivity].
  destruct (JSON_parse w text) as [json|]; run_monad; [| reflexivity].
  destruct json; reflexivity.
Qed.

(** One fallback chain: the command runs only when both candidates are empty. *)
Lemma chain_run payload name command :
  or_else payload (or_else (process_env w name) (execa_stdout w command)) =
  ((if truthy payload || truthy (process_env w name) then []
    else [Exec command EXECA_OPTS]),
   chain_outcome w [payload; process_env w name] command).
Proof.
  unfold or_else, chain_outcome, first_nonempty, execa_stdout, execa, emit.
  cbn [find].
  destruct (truthy payload); [reflexivity |].
  destruct (truthy (process_env w name)); [reflexivity |].
  run_monad. cbn [orb].
  destruct (command_outcome w command); reflexivity.
Qed.

Lemma compute_isCanary_silent branchName remoteUrl :
  trace (compute_isCanary branchName remoteUrl) = [].
Proof.
  unfold compute_isCanary, call_trim, call_includes.
  destruct branchName; run_monad; try reflexivity.
  destruct (String.eqb _ _); [| reflexivity].
  destruct remoteUrl; reflexivity.
Qed.

(** A failing diff is reported and replaced by empty output. *)
Lemma diff_canary_run :
  diff_canary w =
  (Exec diff_command EXECA_OPTS ::
     match command_outcome w diff_command with
     | Some _ => []
     | None => [ConsoleError [AErr (ExecaError diff_command)]]
     end,
   Returned (changesResult_of w)).
Proof.
  unfold diff_canary, changesResult_of, execa, console_error, emit.
  fold diff_command.
  destruct (command_outcome w diff_command); reflexivity.
Qed.

(** The whole run, phase by phase. *)
Lemma getChangedTests_run :
  getChangedTests w =
  match resolve_context w with
  | (t1, Threw e) => (t1, Threw e)
  | (t1, Returned (branchName, remoteUrl, commitSha)) =>
      match result_of (compute_isCanary branchName remoteUrl) with
      | Threw e => (t1, Threw e)
      | Returned true =>
          (t1 ++ [ConsoleLog [AStr "Skipping flake detection for canary"]],
           Returned {| devTests := []; prodTests := []; commitSha := None |})
      | Returned false =>
          match fetch_canary w with
          | (t2, Threw e) => (t1 ++ t2, Threw e)
          | (t2, Returned _) =>
              (t1 ++ t2 ++ trace (diff_canary w)
                 ++ ConsoleLog
                      [AContext branchName remoteUrl false commitSha;
                       AStr (newline ++ "git diff:" ++ newline
                               ++ stderr (changesResult_of w) ++ newline
                               ++ stdout (changesResult_of w))%string]
                 :: map Access (changedFiles_of w)
                 ++ [ConsoleLog
                       [AStr "Detected tests:";
                        AStringified
                          (filter (fun f => candidate w f && to_dev f) (changedFiles_of w))
                          (filter (fun f => candidate w f && to_prod f) (changedFiles_of w))]],
               Returned
                 {| devTests :=
                      filter (fun f => candidate w f && to_dev f) (changedFiles_of w);
                    prodTests :=
                      filter (fun f => candidate w f && to_prod f) (changedFiles_of w);
                    commitSha := Some commitSha |})
          end
      end
  end.
Proof.
  unfold getChangedTests, resolve_context.
  destruct (read_eventData w) as [t0 [eventData | e]]; run_monad; [| reflexivity].
  destruct (resolve_branchName w eventData) as [tb [branchName | e]]; run_monad;
    [| reflexivity].
  destruct (resolve_remoteUrl w eventData) as [tr [remoteUrl | e]]; run_monad;
    [| reflexivity].
  destruct (resolve_commitSha w eventData) as [tc [commitSha | e]]; run_monad;
    [| reflexivity].
  pose proof (compute_isCanary_silent branchName remoteUrl) as Hsilent.
  destruct (compute_isCanary branchName remoteUrl) as [ti [isCanary | e]];
    cbn [trace fst] in Hsilent; subst ti; cbn [result_of snd]; run_monad;
    [| reflexivity].
  destruct isCanary.
  - unfold console_log, emit. run_monad.
    rewrite ?app_nil_r, <- ?app_assoc. reflexivity.
  - destruct (fetch_canary w) as [t2 [[] | e]]; run_monad.
    + rewrite diff_canary_run. cbn [trace fst]. run_monad.
      unfold console_log, emit. run_monad.
      rewrite for_changedFiles_run. fold (changedFiles_of w).
      run_monad. cbn [fst snd].
      rewrite ?app_nil_r, <- ?app_assoc. reflexivity.
    + rewrite ?app_nil_r, <- ?app_assoc. reflexivity.
Qed.

End Run.

(** ** Facts shared by the properties *)

Section Facts.

Variable w : world.

(** Context resolution is the three chains, in order. *)
Lemma resolve_context_result :
  result_of (resolve_context w) =
  match
    chain_outcome w [payload_ref (eventData_of w); process_env w "GITHUB_REF_NAME"]
      "git rev-parse --abbrev-ref HEAD",
    chain_outcome w [payload_full_name (eventData_of w); process_env w "GITHUB_REPOSITORY"]
      "git remote get-url origin",
    chain_outcome w [payload_sha (eventData_of w); process_env w "GITHUB_SHA"]
      "git rev-parse HEAD"
  with
  | Returned branchName, Returned remoteUrl, Returned commitSha =>
      Returned (branchName, remoteUrl, commitSha)
  | Threw e, _, _ => Threw e
  | Returned _, Threw e, _ => Threw e
  | Returned _, Returned _, Threw e => Threw e
  end.
Proof.
  unfold resolve_context, resolve_branchName, resolve_remoteUrl, resolve_commitSha.
  rewrite read_eventData_run. run_monad.
  fold (payload_ref (eventData_of w)) (payload_full_name (eventData_of w))
       (payload_sha (eventData_of w)).
  rewrite !chain_run.
  destruct (chain_outcome w [payload_ref _; _] _); [| reflexivity].
  destruct (chain_outcome w [payload_full_name _; _] _); [| reflexivity].
  destruct (chain_outcome w [payload_sha _; _] _); reflexivity.
Qed.

(** Context resolution reads the event file and runs at most its three commands. *)
Lemma resolve_context_before_fetch :
  forallb before_fetch (trace (resolve_context w)) = true.
Proof.
  unfold resolve_context, resolve_branchName, resolve_remoteUrl, resolve_commitSha.
  rewrite read_eventData_run. run_monad.
  rewrite !chain_run.
  destruct (chain_outcome w [optional_chain (optional_chain _ "head") "ref"; _] _);
    [| destruct (_ || _); reflexivity].
  destruct (chain_outcome w [optional_chain _ "full_name"; _] _);
    [| do 2 destruct (_ || _); reflexivity].
  destruct (chain_outcome w [optional_chain (optional_chain _ "head") "sha"; _] _);
    do 3 destruct (_ || _); reflexivity.
Qed.

Lemma before_fetch_not_ran {A} (t : list event) (o : outcome A) command :
  forallb before_fetch t = true ->
  before_fetch (Exec command EXECA_OPTS) = false ->
  ran command (t, o) = false.
Proof.
  unfold ran. cbn [trace fst before_fetch]. intros Ht Hc.
  induction t as [|e t IH]; [reflexivity |].
  cbn [forallb existsb] in Ht |- *.
  apply andb_prop in Ht as [He Ht]. rewrite (IH Ht), orb_false_r.
  destruct e as [path | c opts | file | args | args]; try reflexivity.
  destruct (String.eqb_spec c command) as [-> |]; [| reflexivity].
  cbn [before_fetch] in He. congruence.
Qed.

(** How a returning run ended: at the canary notice, or after classifying. *)
Lemma returned_cases r :
  result_of (getChangedTests w) = Returned r ->
  (ran diff_command (getChangedTests w) = false /\
   r = {| devTests := []; prodTests := []; commitSha := None |})
  \/
  (devTests r = filter (fun f => candidate w f && to_dev f) (changedFiles_of w) /\
   prodTests r = filter (fun f => candidate w f && to_prod f) (changedFiles_of w) /\
   exists sha, commitSha r = Some sha).
Proof.
  rewrite getChangedTests_run.
  pose proof resolve_context_before_fetch as Hctx.
  destruct (resolve_context w) as [t1 [[[branchName remoteUrl] sha] | e]];
    [| discriminate].
  cbn [trace fst] in Hctx.
  destruct (result_of (compute_isCanary branchName remoteUrl)) as [[] | e];
    [| | discriminate].
  - cbn [result_of snd]. intros [= <-]. left. split; [| reflexivity].
    apply before_fetch_not_ran; [| reflexivity].
    rewrite forallb_app, Hctx. reflexivity.
  - destruct (fetch_canary w) as [t2 [[] | e]]; [| discriminate].
    cbn [result_of snd]. intros [= <-]. right. cbn.
    repeat split. now exists sha.
Qed.

(** What the two lists can hold. *)
Lemma kept_dev x :
  In x (filter (fun f => candidate w f && to_dev f) (changedFiles_of w)) ->
  Str.replace_backslashes x = x /\ candidate w x = true /\ to_dev x = true.
Proof.
  rewrite filter_In. unfold changedFiles_of. rewrite in_map_iff.
  intros [(y & <- & _) H%andb_prop].
  now rewrite StrFacts.replace_backslashes_idem.
Qed.

Lemma kept_prod x :
  In x (filter (fun f => candidate w f && to_prod f) (changedFiles_of w)) ->
  Str.replace_backslashes x = x /\ candidate w x = true /\ to_prod x = true.
Proof.
  rewrite filter_In. unfold changedFiles_of. rewrite in_map_iff.
  intros [(y & <- & _) H%andb_prop].
  now rewrite StrFacts.replace_backslashes_idem.
Qed.

(** Every entry of a returned list is a normalised, existing test file. *)
Lemma listed_is_candidate r x :
  result_of (getChangedTests w) = Returned r ->
  In x (devTests r) \/ In x (prodTests r) ->
  Str.replace_backslashes x = x /\ candidate w x = true.
Proof.
  intros Hr Hx.
  destruct (returned_cases Hr) as [[_ ->] | (Hd & Hp & _)].
  - cbn in Hx. tauto.
  - rewrite Hd, Hp in Hx.
    destruct Hx as [Hx%kept_dev | Hx%kept_prod]; tauto.
Qed.

Lemma fetch_canary_returns :
  fetch_or_report w = true -> returns (fetch_canary w).
Proof.
  unfold fetch_or_report, succeeds, fetch_canary, execa, console_error, emit, returns.
  destruct (command_outcome w "git remote set-branches --add origin canary");
    destruct (command_outcome w "git fetch origin canary --depth=20");
    destruct (command_outcome w "git remote -v");
    cbn; intros H; try discriminate H; eexists; reflexivity.
Qed.

Lemma chain_resolvable payload name command :
  resolvable w payload name command = true ->
  string_or_falsy payload = true ->
  exists s, chain_outcome w [payload; process_env w name] command = Returned (VStr s).
Proof.
  unfold resolvable, succeeds, chain_outcome, first_nonempty, process_env.
  cbn [find]. intros Hres Hstr.
  destruct (truthy payload) eqn:Hp.
  - destruct payload; cbn in Hp, Hstr |- *; try discriminate; try (now eexists).
    all: rewrite Hp in Hstr; discriminate.
  - cbn [orb] in Hres.
    destruct (env w name) as [s |]; cbn [truthy] in Hres |- *.
    + destruct (negb (String.eqb s "")); [now eexists |].
      cbn [orb] in Hres.
      destruct (command_outcome w command); [now eexists | discriminate].
    + destruct (command_outcome w command); [now eexists | discriminate].
Qed.

End Facts.

Lemma count_occ_filter (keep : string -> bool) (l : list string) (x : string) :
  count_occ string_dec (filter keep l) x =
  if keep x then count_occ string_dec l x else 0.
Proof.
  induction l as [|y l IH]; cbn [filter count_occ]; [now destruct (keep x) |].
  destruct (string_dec y x) as [-> | N].
  - destruct (keep x) eqn:K; [| exact IH].
    cbn [count_occ]. destruct (string_dec x x); [| congruence]. now rewrite IH.
  - destruct (keep y); [| exact IH].
    cbn [count_occ]. destruct (string_dec y x); [congruence | exact IH].
Qed.

(** A failed fetch is reported, when the report itself can be made. *)
Lemma fetch_failure_reported (w : world) (remotes : exec_result) :
  command_outcome w "git remote -v" = Some remotes ->
  succeeds w "git remote set-branches --add origin canary"
    && succeeds w "git fetch origin canary --depth=20" = false ->
  exists t err,
    fetch_canary w =
      (t ++ [Exec "git remote -v" EXECA_OPTS_STDIO;
             ConsoleError [AExecResult remotes];
             ConsoleError [AStr "Failed to fetch origin/canary"; AErr err]],
       Returned tt).
Proof.
  unfold succeeds, fetch_canary, execa, console_error, emit.
  intros ->.
  destruct (command_outcome w "git remote set-branches --add origin canary").
  - destruct (command_outcome w "git fetch origin canary --depth=20");
      [discriminate |].
    intros _.
    exists [Exec "git remote set-branches --add origin canary" EXECA_OPTS_STDIO;
            Exec "git fetch origin canary --depth=20" EXECA_OPTS_STDIO].
    eexists. reflexivity.
  - intros _.
    exists [Exec "git remote set-branches --add origin canary" EXECA_OPTS_STDIO].
    eexists. reflexivity.
Qed.

(** The example paths of the specification, classified. *)
Example examples_classified :
  result_of (getChangedTests Sample.examples_run) =
  Returned
    {| devTests := ["test/e2e/foo.test.ts"; "test/development/baz.test.tsx";
                    "test/developments/y.test.ts"; "test/e2e/win.test.ts"];
       prodTests := ["test/e2e/foo.test.ts"; "test/prod/bar.test.js";
                     "test/production/x.test.ts"; "test/e2e/win.test.ts"];
       commitSha := Some (VStr "76543210") |}.
Proof. vm_compute. reflexivity. Qed.

Example pattern_examples :
  map (Re.matches test_file_pattern)
    ["test/e2e/foo.test.ts"; "test/prod/bar.test.js"; "test/development/baz.test.tsx";
     "test/.test.js"; "test/e2e/foo.test.jsx"; "test/e2e/foo.test.ts.snap";
     "packages/next/test/a.test.ts"; "test/readme.md"; ""]
  = [true; true; true; true; false; false; false; false; false].
Proof. vm_compute. reflexivity. Qed.

(** ** The properties of the specification *)



(** C2.  For a changed path that exists on disk and matches the test-file
    pattern, the first matching rule decides: under "test/e2e/" every
    occurrence in the diff is appended to both lists; otherwise under
    "test/prod" to [prodTests] only; otherwise under "test/development" to
    [devTests] only; otherwise to neither. *)
Theorem bucketing_first_matching_rule
    (w : world) (r : ClassificationResult) (file : string) :
  result_of (getChangedTests w) = Returned r ->
  ran diff_command (getChangedTests w) = true ->
  accessible w file = true ->
  Re.matches test_file_pattern file = true ->
  (count_occ string_dec (devTests r) file, count_occ string_dec (prodTests r) file) =
  let n := count_occ string_dec (changedFiles_of w) file in
  if Str.startsWith file "test/e2e/" then (n, n)
  else if Str.startsWith file "test/prod" then (0, n)
  else if Str.startsWith file "test/development" then (n, 0)
  else (0, 0).
Proof.
  intros Hr Hran Hacc Hmatch.
  destruct (returned_cases w Hr) as [[Hnot _] | (-> & -> & _)]; [congruence |].
  rewrite !count_occ_filter. unfold candidate, to_dev, to_prod, rule_of.
  rewrite Hacc, Hmatch. cbn [andb].
  destruct (Str.startsWith file "test/e2e/"); [reflexivity |].
  destruct (Str.startsWith file "test/prod"); [reflexivity |].
  destruct (Str.startsWith file "test/development"); reflexivity.
Qed.

Lemma bucketing_first_matching_rule_witness :
  result_of (getChangedTests Sample.pull_request_run)
    = Returned Sample.pull_request_result /\
  ran diff_command (getChangedTests Sample.pull_request_run) = true /\
  accessible Sample.pull_request_run "test/e2e/app-dir/foo.test.ts" = true /\
  Re.matches test_file_pattern "test/e2e/app-dir/foo.test.ts" = true /\
  (count_occ string_dec (devTests Sample.pull_request_result)
     "test/e2e/app-dir/foo.test.ts",
   count_occ string_dec (prodTests Sample.pull_request_result)
     "test/e2e/app-dir/foo.test.ts") = (2, 2).
Proof.
  split; [vm_compute; reflexivity |]. split; [vm_compute; reflexivity |].
  split; [vm_compute; reflexivity |]. split; [vm_compute; reflexivity |].
  rewrite (@bucketing_first_matching_rule Sample.pull_request_run
             Sample.pull_request_result "test/e2e/app-dir/foo.test.ts");
    vm_compute; reflexivity.
Defined.

Lemma chain_resolvable_any (w : world) payload name command :
  resolvable w payload name command = true ->
  exists v, chain_outcome w [payload; process_env w name] command = Returned v.
Proof.
  unfold resolvable, succeeds, chain_outcome, first_nonempty. cbn [find].
  destruct (truthy payload); [now eexists |].
  destruct (truthy (process_env w name)); [now eexists |].
  destruct (command_outcome w command); [now eexists | discriminate].
Qed.

(** C3, as the code has it.  [getChangedTests] returns a result, whatever
    becomes of the event file, of the fetch and of the diff, provided each
    of the three context values can be had from the payload, from the
    environment or from a succeeding git command, the payload's branch and
    repository names are strings when present, and the fetch either goes
    through or can be reported. *)
Theorem returns_once_context_resolves (w : world) :
  resolvable w (payload_ref (eventData_of w)) "GITHUB_REF_NAME"
    "git rev-parse --abbrev-ref HEAD" = true ->
  resolvable w (payload_full_name (eventData_of w)) "GITHUB_REPOSITORY"
    "git remote get-url origin" = true ->
  resolvable w (payload_sha (eventData_of w)) "GITHUB_SHA"
    "git rev-parse HEAD" = true ->
  string_or_falsy (payload_ref (eventData_of w)) = true ->
  string_or_falsy (payload_full_name (eventData_of w)) = true ->
  fetch_or_report w = true ->
  returns (getChangedTests w).
Proof.
  intros Hb Hr Hs Sb Sr Hf. unfold returns.
  destruct (chain_resolvable w _ _ _ Hb Sb) as [branch Eb].
  destruct (chain_resolvable w _ _ _ Hr Sr) as [remote Er].
  destruct (chain_resolvable_any w _ _ _ Hs) as [sha Es].
  pose proof (resolve_context_result w) as Hctx.
  rewrite Eb, Er, Es in Hctx.
  rewrite getChangedTests_run.
  destruct (resolve_context w) as [t1 o]. cbn [result_of snd] in Hctx. subst o.
  assert (Hcanary : exists b, result_of (compute_isCanary (VStr branch) (VStr remote))
                              = Returned b).
  { unfold compute_isCanary, call_trim, call_includes. run_monad.
    destruct (String.eqb _ _); now eexists. }
  destruct Hcanary as [isCanary ->].
  destruct isCanary; [now eexists |].
  destruct (fetch_canary_returns w Hf) as [[] Hfetch].
  destruct (fetch_canary w) as [t2 o]. cbn [result_of snd] in Hfetch. subst o.
  now eexists.
Qed.

Lemma returns_once_context_resolves_witness :
  fetch_or_report Sample.offline_run = true /\
  succeeds Sample.offline_run "git fetch origin canary --depth=20" = false /\
  succeeds Sample.offline_run diff_command = false /\
  returns (getChangedTests Sample.offline_run).
Proof.
  split; [reflexivity |]. split; [reflexivity |]. split; [reflexivity |].
  apply (returns_once_context_resolves Sample.offline_run); reflexivity.
Defined.

(** C3, as stated, fails: outside a checkout and without the CI variables
    the first git command of context resolution fails and the error
    reaches the caller. *)
Lemma context_failure_reaches_caller :
  getChangedTests Sample.no_git_run =
    ([ReadFile ""; Exec "git rev-parse --abbrev-ref HEAD" EXECA_OPTS],
     Threw (ExecaError "git rev-parse --abbrev-ref HEAD")) /\
  ~ returns (getChangedTests Sample.no_git_run).
Proof.
  split; [reflexivity |].
  intros [r Hr]. discriminate Hr.
Qed.

(** C4.  A changed path that, once its slashes are normalised, does not
    match [test/**/*.test.{js,ts,tsx}] is in neither list, in either
    spelling. *)
Theorem non_test_paths_excluded
    (w : world) (r : ClassificationResult) (path : string) :
  result_of (getChangedTests w) = Returned r ->
  Re.matches spec_test_glob (Str.replace_backslashes path) = false ->
  ~ In (Str.replace_backslashes path) (devTests r) /\
  ~ In (Str.replace_backslashes path) (prodTests r) /\
  ~ In path (devTests r) /\
  ~ In path (prodTests r).
Proof.
  intros Hr Hglob.
  assert (Hlisted : forall x, In x (devTests r) \/ In x (prodTests r) ->
                              Str.replace_backslashes x = x /\
                              Re.matches spec_test_glob x = true).
  { intros x Hx. destruct (listed_is_candidate w x Hr Hx) as [Hnorm Hcand].
    split; [exact Hnorm |].
    apply andb_prop in Hcand as [_ Hpat].
    now apply GlobFacts.pattern_matches_glob. }
  repeat split; intros Hin.
  - destruct (Hlisted _ (or_introl Hin)) as [_ H]. congruence.
  - destruct (Hlisted _ (or_intror Hin)) as [_ H]. congruence.
  - destruct (Hlisted _ (or_introl Hin)) as [Hn H]. rewrite Hn in Hglob. congruence.
  - destruct (Hlisted _ (or_intror Hin)) as [Hn H]. rewrite Hn in Hglob. congruence.
Qed.

Lemma non_test_paths_excluded_witness :
  result_of (getChangedTests Sample.pull_request_run)
    = Returned Sample.pull_request_result /\
  Re.matches spec_test_glob
    (Str.replace_backslashes "test/e2e/app-dir/foo.test.ts.snap") = false /\
  ~ In "test/e2e/app-dir/foo.test.ts.snap" (devTests Sample.pull_request_result) /\
  ~ In "test/e2e/app-dir/foo.test.ts.snap" (prodTests Sample.pull_request_result).
Proof.
  split; [vm_compute; reflexivity |]. split; [vm_compute; reflexivity |].
  apply (@non_test_paths_excluded Sample.pull_request_run Sample.pull_request_result
           "test/e2e/app-dir/foo.test.ts.snap"); vm_compute; reflexivity.
Defined.

(** C5.  A changed path whose existence check fails is in neither list,
    whether or not it matches the pattern. *)
Theorem missing_files_excluded
    (w : world) (r : ClassificationResult) (path : string) :
  result_of (getChangedTests w) = Returned r ->
  accessible w (Str.replace_backslashes path) = false ->
  ~ In (Str.replace_backslashes path) (devTests r) /\
  ~ In (Str.replace_backslashes path) (prodTests r) /\
  ~ In path (devTests r) /\
  ~ In path (prodTests r).
Proof.
  intros Hr Hacc.
  assert (Hlisted : forall x, In x (devTests r) \/ In x (prodTests r) ->
                              Str.replace_backslashes x = x /\ accessible w x = true).
  { intros x Hx. destruct (listed_is_candidate w x Hr Hx) as [Hnorm Hcand].
    split; [exact Hnorm |].
    now apply andb_prop in Hcand as [Hex _]. }
  repeat split; intros Hin.
  - destruct (Hlisted _ (or_introl Hin)) as [_ H]. congruence.
  - destruct (Hlisted _ (or_intror Hin)) as [_ H]. congruence.
  - destruct (Hlisted _ (or_introl Hin)) as [Hn H]. rewrite Hn in Hacc. congruence.
  - destruct (Hlisted _ (or_intror Hin)) as [Hn H]. rewrite Hn in Hacc. congruence.
Qed.

Lemma missing_files_excluded_witness :
  result_of (getChangedTests Sample.pull_request_run)
    = Returned Sample.pull_request_result /\
  Re.matches test_file_pattern "test/e2e/removed.test.ts" = true /\
  accessible Sample.pull_request_run
    (Str.replace_backslashes "test/e2e/removed.test.ts") = false /\
  ~ In "test/e2e/removed.test.ts" (devTests Sample.pull_request_result) /\
  ~ In "test/e2e/removed.test.ts" (prodTests Sample.pull_request_result).
Proof.
  split; [vm_compute; reflexivity |]. split; [vm_compute; reflexivity |].
  split; [vm_compute; reflexivity |].
  apply (@missing_files_excluded Sample.pull_request_run Sample.pull_request_result
           "test/e2e/removed.test.ts"); vm_compute; reflexivity.
Defined.

(** Only the diff and the classification look at the outcome of the diff command. *)
Lemma resolve_context_with_diff (w : world) (r : option exec_result) :
  resolve_context (with_diff w r) = resolve_context w.
Proof. reflexivity. Qed.

Lemma fetch_canary_with_diff (w : world) (r : option exec_result) :
  fetch_canary (with_diff w r) = fetch_canary w.
Proof. reflexivity. Qed.

Lemma changedFiles_with_diff (w : world) (out : exec_result) :
  changedFiles_of (with_diff w (Some out))
  = map Str.replace_backslashes (Str.split_lines (stdout out)).
Proof. reflexivity. Qed.

(** Texts that differ only in how separators are spelled normalise alike. *)
Lemma replace_backslashes_spelling raw : forall spelled,
  same_but_for_backslashes raw spelled = true ->
  Str.replace_backslashes raw = Str.replace_backslashes spelled.
Proof.
  induction raw as [|a raw IH]; intros [|b spelled]; cbn;
    try (intros H; discriminate H); [reflexivity |].
  intros [Hchar Hrest]%andb_prop. rewrite (IH _ Hrest). f_equal.
  apply orb_prop in Hchar as [Hsame | [Hback Hslash]%andb_prop].
  - apply Ascii.eqb_eq in Hsame. now subst b.
  - apply Ascii.eqb_eq in Hback, Hslash. now subst a b.
Qed.

(** What line 82 yields is its input respelled, with no backslash left. *)
Lemma replace_backslashes_respells s :
  same_but_for_backslashes s (Str.replace_backslashes s) = true /\
  Str.all_chars (fun c => negb (Ascii.eqb c "\")) (Str.replace_backslashes s) = true.
Proof.
  induction s as [|c s [IHspelling IHnone]]; [now split |].
  cbn [Str.replace_backslashes same_but_for_backslashes Str.all_chars].
  rewrite IHspelling, IHnone, !andb_true_r.
  destruct (Ascii.eqb c "\") eqn:E.
  - split; [apply orb_true_r | reflexivity].
  - split; [now rewrite Ascii.eqb_refl | now rewrite E].
Qed.

(** C6.  Writing the diff output with backslashes or with forward slashes
    makes no difference: two outputs that differ only in backslashes
    written as forward slashes give the same changed paths to the loop and
    the same returned or thrown outcome (so the line [test\e2e\foo.test.ts]
    yields the list entries of [test/e2e/foo.test.ts]); and what the script
    matches is such a respelling of what the diff printed, with no
    backslash left in it. *)
Theorem classification_ignores_backslashes (w : world) (out1 out2 : exec_result) :
  same_but_for_backslashes (stdout out1) (stdout out2) = true ->
  changedFiles_of (with_diff w (Some out1))
    = changedFiles_of (with_diff w (Some out2)) /\
  result_of (getChangedTests (with_diff w (Some out1)))
    = result_of (getChangedTests (with_diff w (Some out2))) /\
  same_but_for_backslashes (stdout out1) (Str.replace_backslashes (stdout out1)) = true /\
  no_backslash (Str.replace_backslashes (stdout out1)) = true.
Proof.
  intros Hspelling.
  assert (Hfiles : changedFiles_of (with_diff w (Some out1))
                   = changedFiles_of (with_diff w (Some out2))).
  { rewrite !changedFiles_with_diff, <- !StrFacts.split_lines_replace.
    now rewrite (replace_backslashes_spelling _ _ Hspelling). }
  split; [exact Hfiles |]. split.
  - rewrite !getChangedTests_run, !resolve_context_with_diff, !fetch_canary_with_diff.
    destruct (resolve_context w) as [t1 [[[branchName remoteUrl] sha] | e]];
      [| reflexivity].
    destruct (result_of (compute_isCanary branchName remoteUrl)) as [[] | e];
      try reflexivity.
    destruct (fetch_canary w) as [t2 [[] | e]]; [| reflexivity].
    cbn [result_of snd]. rewrite Hfiles. reflexivity.
  - apply replace_backslashes_respells.
Qed.

Lemma classification_ignores_backslashes_witness :
  same_but_for_backslashes "test\e2e\foo.test.ts" "test/e2e/foo.test.ts" = true /\
  result_of (getChangedTests
               (with_diff Sample.examples_run
                  (Some {| stdout := "test/e2e/foo.test.ts"; stderr := "" |})))
  = Returned {| devTests := ["test/e2e/foo.test.ts"];
                prodTests := ["test/e2e/foo.test.ts"];
                commitSha := Some (VStr "76543210") |} /\
  result_of (getChangedTests
               (with_diff Sample.examples_run
                  (Some {| stdout := "test\e2e\foo.test.ts"; stderr := "" |})))
  = Returned {| devTests := ["test/e2e/foo.test.ts"];
                prodTests := ["test/e2e/foo.test.ts"];
                commitSha := Some (VStr "76543210") |}.
Proof.
  assert (Hspelling : same_but_for_backslashes "test\e2e\foo.test.ts"
                        "test/e2e/foo.test.ts" = true) by reflexivity.
  split; [exact Hspelling |].
  assert (Hslash : result_of (getChangedTests
                     (with_diff Sample.examples_run
                        (Some {| stdout := "test/e2e/foo.test.ts"; stderr := "" |})))
                   = Returned {| devTests := ["test/e2e/foo.test.ts"];
                                 prodTests := ["test/e2e/foo.test.ts"];
                                 commitSha := Some (VStr "76543210") |})
    by (vm_compute; reflexivity).
  split; [exact Hslash |].
  rewrite <- Hslash.
  exact (proj1 (proj2 (classification_ignores_backslashes Sample.examples_run
                         {| stdout := "test\e2e\foo.test.ts"; stderr := "" |}
                         {| stdout := "test/e2e/foo.test.ts"; stderr := "" |}
                         Hspelling))).
Defined.

(** C7 fails on the code.  On a branch whose working directory is not a
    checkout, registering the baseline branch fails, the handler's own
    [git remote -v] fails in turn, and that second error escapes: nothing
    is logged and no result is returned. *)
Theorem fetch_report_failure_escapes :
  succeeds Sample.not_a_checkout_run "git remote set-branches --add origin canary" = false /\
  getChangedTests Sample.not_a_checkout_run =
    ([ReadFile "";
      Exec "git remote set-branches --add origin canary" EXECA_OPTS_STDIO;
      Exec "git remote -v" EXECA_OPTS_STDIO],
     Threw (ExecaError "git remote -v")).
Proof.
  split; reflexivity.
Qed.

(** C8.  Reading the event file never throws, and an unreadable or
    unparseable file leaves the empty payload; each of branch name, remote
    URL and commit SHA is the first non-empty of the payload field and the
    environment variable, else the output of its git command. *)
Theorem context_fallback_chain (w : world) :
  result_of (read_eventData w) = Returned (eventData_of w) /\
  (file_text w (event_path w) = None \/
   (exists text, file_text w (event_path w) = Some text /\ JSON_parse w text = None) ->
   eventData_of w = VObj []) /\
  result_of (resolve_branchName w (eventData_of w)) =
    chain_outcome w
      [optional_chain (optional_chain (eventData_of w) "head") "ref";
       process_env w "GITHUB_REF_NAME"]
      "git rev-parse --abbrev-ref HEAD" /\
  result_of (resolve_remoteUrl w (eventData_of w)) =
    chain_outcome w
      [optional_chain (optional_chain (optional_chain (eventData_of w) "head") "repo")
         "full_name";
       process_env w "GITHUB_REPOSITORY"]
      "git remote get-url origin" /\
  result_of (resolve_commitSha w (eventData_of w)) =
    chain_outcome w
      [optional_chain (optional_chain (eventData_of w) "head") "sha";
       process_env w "GITHUB_SHA"]
      "git rev-parse HEAD" /\
  result_of (resolve_context w) =
    match result_of (resolve_branchName w (eventData_of w)),
          result_of (resolve_remoteUrl w (eventData_of w)),
          result_of (resolve_commitSha w (eventData_of w)) with
    | Returned branchName, Returned remoteUrl, Returned commitSha =>
        Returned (branchName, remoteUrl, commitSha)
    | Threw e, _, _ => Threw e
    | Returned _, Threw e, _ => Threw e
    | Returned _, Returned _, Threw e => Threw e
    end.
Proof.
  assert (Hb : forall ev, result_of (resolve_branchName w ev) =
                 chain_outcome w [payload_ref ev; process_env w "GITHUB_REF_NAME"]
                   "git rev-parse --abbrev-ref HEAD")
    by (intros ev; unfold resolve_branchName; now rewrite chain_run).
  assert (Hr : forall ev, result_of (resolve_remoteUrl w ev) =
                 chain_outcome w [payload_full_name ev; process_env w "GITHUB_REPOSITORY"]
                   "git remote get-url origin")
    by (intros ev; unfold resolve_remoteUrl; now rewrite chain_run).
  assert (Hs : forall ev, result_of (resolve_commitSha w ev) =
                 chain_outcome w [payload_sha ev; process_env w "GITHUB_SHA"]
                   "git rev-parse HEAD")
    by (intros ev; unfold resolve_commitSha; now rewrite chain_run).
  split; [now rewrite read_eventData_run |].
  split.
  { unfold eventData_of. intros [Hfile | (text & Hfile & Hparse)]; rewrite Hfile.
    - now destruct (String.eqb _ _).
    - rewrite Hparse. now destruct (String.eqb _ _). }
  split; [apply Hb |]. split; [apply Hr |]. split; [apply Hs |].
  rewrite Hb, Hr, Hs. apply resolve_context_result.
Qed.

Lemma context_fallback_chain_witness :
  (file_text Sample.offline_run (event_path Sample.offline_run) = None \/
   (exists text, file_text Sample.offline_run (event_path Sample.offline_run) = Some text /\
                 JSON_parse Sample.offline_run text = None)) /\
  eventData_of Sample.offline_run = VObj [] /\
  result_of (resolve_context Sample.pull_request_run)
    = Returned (VStr "fix/flaky-test", VStr "contributor/next.js", VStr "0a1b2c3d") /\
  result_of (resolve_context Sample.offline_run)
    = Returned (VStr "feature", VStr "git@github.com:contributor/next.js.git",
                VStr "89abcdef").
Proof.
  split; [left; reflexivity |].
  split; [apply (context_fallback_chain Sample.offline_run); left; reflexivity |].
  split.
  - rewrite (proj2 (proj2 (proj2 (proj2 (proj2
               (context_fallback_chain Sample.pull_request_run)))))).
    vm_compute. reflexivity.
  - rewrite (proj2 (proj2 (proj2 (proj2 (proj2
               (context_fallback_chain Sample.offline_run)))))).
    vm_compute. reflexivity.
Defined.

(** C9.  Each list is, in diff order and with repetitions kept, the
    changed paths (slashes normalised, as the loop does first) that exist,
    match the pattern and fall under the list's rule. *)
Theorem lists_follow_diff_order (w : world) (r : ClassificationResult) :
  result_of (getChangedTests w) = Returned r ->
  ran diff_command (getChangedTests w) = true ->
  devTests r =
    filter (fun file =>
              accessible w file && Re.matches test_file_pattern file && to_dev file)
      (map Str.replace_backslashes (Str.split_lines (stdout (changesResult_of w)))) /\
  prodTests r =
    filter (fun file =>
              accessible w file && Re.matches test_file_pattern file && to_prod file)
      (map Str.replace_backslashes (Str.split_lines (stdout (changesResult_of w)))).
Proof.
  intros Hr Hran.
  destruct (returned_cases w Hr) as [[Hnot _] | (Hd & Hp & _)]; [congruence |].
  split; assumption.
Qed.

Lemma lists_follow_diff_order_witness :
  result_of (getChangedTests Sample.pull_request_run)
    = Returned Sample.pull_request_result /\
  ran diff_command (getChangedTests Sample.pull_request_run) = true /\
  count_occ string_dec (changedFiles_of Sample.pull_request_run)
    "test/e2e/app-dir/foo.test.ts" = 2 /\
  devTests Sample.pull_request_result =
    filter (fun file =>
              accessible Sample.pull_request_run file
              && Re.matches test_file_pattern file && to_dev file)
      (map Str.replace_backslashes
         (Str.split_lines (stdout (changesResult_of Sample.pull_request_run)))).
Proof.
  split; [vm_compute; reflexivity |]. split; [vm_compute; reflexivity |].
  split; [vm_compute; reflexivity |].
  apply (@lists_follow_diff_order Sample.pull_request_run Sample.pull_request_result);
    vm_compute; reflexivity.
Defined.

(** C10.  The production and development rules are bare prefix tests: an
    existing, pattern-matching changed path that starts with "test/prod" is
    appended to [prodTests] at each occurrence, and one that starts with
    "test/development" to [devTests], with or without a separator after the
    prefix. *)
Theorem prefix_rules_need_no_separator
    (w : world) (r : ClassificationResult) (file : string) :
  result_of (getChangedTests w) = Returned r ->
  ran diff_command (getChangedTests w) = true ->
  accessible w file = true ->
  Re.matches test_file_pattern file = true ->
  (Str.startsWith file "test/prod" = true ->
   count_occ string_dec (prodTests r) file
   = count_occ string_dec (changedFiles_of w) file) /\
  (Str.startsWith file "test/development" = true ->
   count_occ string_dec (devTests r) file
   = count_occ string_dec (changedFiles_of w) file).
Proof.
  intros Hr Hran Hacc Hmatch.
  destruct (returned_cases w Hr) as [[Hnot _] | (-> & -> & _)]; [congruence |].
  rewrite !count_occ_filter. unfold candidate, to_dev, to_prod, rule_of.
  rewrite Hacc, Hmatch. cbn [andb].
  split; intros Hprefix.
  - rewrite Hprefix. now destruct (Str.startsWith file "test/e2e/").
  - rewrite Hprefix.
    rewrite (StrFacts.startsWith_exclusive file "test/development" "test/e2e/"
               eq_refl eq_refl Hprefix).
    rewrite (StrFacts.startsWith_exclusive file "test/development" "test/prod"
               eq_refl eq_refl Hprefix).
    reflexivity.
Qed.

Lemma prefix_rules_need_no_separator_witness :
  (Str.startsWith "test/production/export/bar.test.js" "test/prod" = true /\
   count_occ string_dec (prodTests Sample.pull_request_result)
     "test/production/export/bar.test.js" = 1) /\
  (Str.startsWith "test/developments/hmr/y.test.ts" "test/development" = true /\
   count_occ string_dec (devTests Sample.pull_request_result)
     "test/developments/hmr/y.test.ts" = 1).
Proof.
  split; (split; [reflexivity |]).
  - rewrite (proj1 (@prefix_rules_need_no_separator Sample.pull_request_run
               Sample.pull_request_result "test/production/export/bar.test.js"
               ltac:(vm_compute; reflexivity) ltac:(vm_compute; reflexivity)
               ltac:(vm_compute; reflexivity) ltac:(vm_compute; reflexivity)));
      vm_compute; reflexivity.
  - rewrite (proj2 (@prefix_rules_need_no_separator Sample.pull_request_run
               Sample.pull_request_result "test/developments/hmr/y.test.ts"
               ltac:(vm_compute; reflexivity) ltac:(vm_compute; reflexivity)
               ltac:(vm_compute; reflexivity) ltac:(vm_compute; reflexivity)));
      vm_compute; reflexivity.
Defined.

(** ** Which commands a run executes *)

Section Traces.

Variable w : world.

(** The fetch block, outcome by outcome. *)
Lemma fetch_canary_run :
  fetch_canary w =
  let set_branches := "git remote set-branches --add origin canary" in
  let fetch := "git fetch origin canary --depth=20" in
  let report (done : list event) (err : exn) : M unit :=
    match command_outcome w "git remote -v" with
    | Some remotes =>
        (done ++ [Exec "git remote -v" EXECA_OPTS_STDIO;
                  ConsoleError [AExecResult remotes];
                  ConsoleError [AStr "Failed to fetch origin/canary"; AErr err]],
         Returned tt)
    | None =>
        (done ++ [Exec "git remote -v" EXECA_OPTS_STDIO],
         Threw (ExecaError "git remote -v"))
    end in
  match command_outcome w set_branches with
  | None => report [Exec set_branches EXECA_OPTS_STDIO] (ExecaError set_branches)
  | Some _ =>
      match command_outcome w fetch with
      | None =>
          report [Exec set_branches EXECA_OPTS_STDIO; Exec fetch EXECA_OPTS_STDIO]
            (ExecaError fetch)
      | Some _ =>
          ([Exec set_branches EXECA_OPTS_STDIO; Exec fetch EXECA_OPTS_STDIO],
           Returned tt)
      end
  end.
Proof.
  unfold fetch_canary, execa, console_error, emit. cbv zeta.
  destruct (command_outcome w "git remote set-branches --add origin canary");
    destruct (command_outcome w "git fetch origin canary --depth=20");
    destruct (command_outcome w "git remote -v"); reflexivity.
Qed.

(** What context resolution does, chain by chain: a chain that throws ends it. *)
Lemma resolve_context_trace :
  trace (resolve_context w) =
  ReadFile (event_path w) ::
  chain_trace w (payload_ref (eventData_of w)) "GITHUB_REF_NAME"
    "git rev-parse --abbrev-ref HEAD" ++
  (if resolvable w (payload_ref (eventData_of w)) "GITHUB_REF_NAME"
        "git rev-parse --abbrev-ref HEAD"
   then
     chain_trace w (payload_full_name (eventData_of w)) "GITHUB_REPOSITORY"
       "git remote get-url origin" ++
     (if resolvable w (payload_full_name (eventData_of w)) "GITHUB_REPOSITORY"
           "git remote get-url origin"
      then chain_trace w (payload_sha (eventData_of w)) "GITHUB_SHA" "git rev-parse HEAD"
      else [])
   else []).
Proof.
  unfold resolve_context, resolve_branchName, resolve_remoteUrl, resolve_commitSha.
  rewrite read_eventData_run. run_monad.
  fold (payload_ref (eventData_of w)) (payload_full_name (eventData_of w))
       (payload_sha (eventData_of w)).
  rewrite !chain_run.
  unfold chain_trace, resolvable, succeeds, chain_outcome, first_nonempty.
  cbn [find].
  destruct (truthy (payload_ref _)), (truthy (process_env w "GITHUB_REF_NAME")),
    (command_outcome w "git rev-parse --abbrev-ref HEAD");
    cbn [orb app trace fst]; try reflexivity;
  destruct (truthy (payload_full_name _)), (truthy (process_env w "GITHUB_REPOSITORY")),
    (command_outcome w "git remote get-url origin");
    cbn [orb app trace fst]; try reflexivity;
  destruct (truthy (payload_sha _)), (truthy (process_env w "GITHUB_SHA")),
    (command_outcome w "git rev-parse HEAD");
    cbn [orb app trace fst]; reflexivity.
Qed.

Lemma existsb_map_Access (f : event -> bool) (files : list string) :
  (forall file, f (Access file) = false) ->
  existsb f (map Access files) = false.
Proof.
  intros Hf. induction files as [|file files IH]; [reflexivity |].
  cbn [map existsb]. now rewrite Hf, IH.
Qed.

Lemma ran_fetch_canary_context command :
  before_fetch (Exec command EXECA_OPTS) = true ->
  ran command (fetch_canary w) = false.
Proof.
  unfold ran. rewrite fetch_canary_run. cbv zeta. cbn [before_fetch existsb].
  intros H.
  assert (E : forall c,
             existsb (String.eqb command)
               ["git rev-parse --abbrev-ref HEAD"; "git remote get-url origin";
                "git rev-parse HEAD"] = true ->
             existsb (String.eqb c)
               ["git rev-parse --abbrev-ref HEAD"; "git remote get-url origin";
                "git rev-parse HEAD"] = false ->
             String.eqb c command = false).
  { intros c Hin Hout. destruct (String.eqb_spec c command) as [-> |]; congruence. }
  destruct (command_outcome w "git remote set-branches --add origin canary");
    destruct (command_outcome w "git fetch origin canary --depth=20");
    destruct (command_outcome w "git remote -v");
    cbn [trace fst app existsb];
    rewrite ?(E "git remote set-branches --add origin canary" H eq_refl),
            ?(E "git fetch origin canary --depth=20" H eq_refl),
            ?(E "git remote -v" H eq_refl);
    reflexivity.
Qed.

(** The commands of a run: those of context resolution, then, past the
    canary test, those of the fetch block and, if that block returns, the
    diff. *)
Lemma ran_getChangedTests command :
  ran command (getChangedTests w) =
  ran command (resolve_context w)
  || reaches_fetch w
     && (ran command (fetch_canary w)
         || returnsb (fetch_canary w) && String.eqb diff_command command).
Proof.
  rewrite getChangedTests_run. unfold reaches_fetch, returnsb, ran.
  destruct (resolve_context w) as [t1 [[[branchName remoteUrl] sha] | e]];
    cbn [trace fst]; [| now rewrite orb_false_r].
  destruct (result_of (compute_isCanary branchName remoteUrl)) as [[] | e];
    cbn [trace fst]; rewrite ?existsb_app; cbn [existsb];
    rewrite ?orb_false_r; try reflexivity.
  destruct (fetch_canary w) as [t2 [[] | e]]; cbn [trace fst result_of snd andb].
  - rewrite diff_canary_run. cbn [trace fst].
    rewrite !existsb_app. cbn [existsb]. rewrite !existsb_app.
    rewrite existsb_map_Access by reflexivity.
    destruct (command_outcome w diff_command); cbn [existsb];
      rewrite ?orb_false_r; reflexivity.
  - rewrite existsb_app, orb_false_r. reflexivity.
Qed.

Lemma ran_resolve_context_later command :
  before_fetch (Exec command EXECA_OPTS) = false ->
  ran command (resolve_context w) = false.
Proof.
  intros H. pose proof (resolve_context_before_fetch w) as Hctx.
  destruct (resolve_context w) as [t o]. now apply before_fetch_not_ran.
Qed.

(** The diff is run exactly when the run gets to the fetch block and that
    block returns. *)
Lemma ran_diff :
  ran diff_command (getChangedTests w) = reaches_fetch w && returnsb (fetch_canary w).
Proof.
  rewrite ran_getChangedTests.
  rewrite ran_resolve_context_later by reflexivity.
  assert (Hfetch : ran diff_command (fetch_canary w) = false).
  { unfold ran. rewrite fetch_canary_run. cbv zeta.
    destruct (command_outcome w "git remote set-branches --add origin canary");
      destruct (command_outcome w "git fetch origin canary --depth=20");
      destruct (command_outcome w "git remote -v"); reflexivity. }
  rewrite Hfetch. cbn [orb]. now rewrite String.eqb_refl, andb_true_r.
Qed.

End Traces.

(** ** Further properties of the script *)

Lemma all_chars_app p s1 s2 :
  Str.all_chars p (s1 ++ s2)%string = Str.all_chars p s1 && Str.all_chars p s2.
Proof.
  induction s1 as [|c s1 IH]; simpl; [reflexivity |].
  now rewrite IH, andb_assoc.
Qed.

Lemma replace_no_backslash s : no_backslash (Str.replace_backslashes s) = true.
Proof.
  unfold no_backslash.
  induction s as [|c s IH]; simpl; [reflexivity |].
  rewrite IH, andb_true_r.
  destruct (Ascii.eqb c "\") eqn:E; [reflexivity | now rewrite E].
Qed.

Lemma filter_filter {A} (p q : A -> bool) (l : list A) :
  filter p (filter q l) = filter (fun x => q x && p x) l.
Proof.
  induction l as [|x l IH]; [reflexivity |].
  cbn [filter]. destruct (q x); cbn [filter andb]; now rewrite IH.
Qed.

Lemma chain_outcome_threw (w : world) candidates command e :
  chain_outcome w candidates command = Threw e -> e = ExecaError command.
Proof.
  unfold chain_outcome.
  destruct (first_nonempty candidates); [discriminate |].
  destruct (command_outcome w command); [discriminate |].
  now intros [= <-].
Qed.

(** X1.  Every entry of either returned list has the shape of a test file,
    "test/" + anything + ".test." + js, ts or tsx, holds no backslash and no
    line terminator, and passed its existence check. *)
Theorem listed_paths_are_test_files
    (w : world) (r : ClassificationResult) (x : string) :
  result_of (getChangedTests w) = Returned r ->
  In x (devTests r) \/ In x (prodTests r) ->
  (exists middle extension,
     x = ("test/" ++ middle ++ ".test." ++ extension)%string /\
     (extension = "js" \/ extension = "ts" \/ extension = "tsx")) /\
  no_backslash x = true /\
  Str.all_chars (fun c => negb (Re.is_line_terminator c)) x = true /\
  accessible w x = true.
Proof.
  intros Hr Hx.
  destruct (listed_is_candidate w x Hr Hx) as [Hnorm Hcand].
  apply andb_prop in Hcand as [Hacc Hpat].
  apply GlobFacts.pattern_shape in Hpat as (middle & extension & -> & Hmid & Hext).
  split; [now exists middle, extension |].
  split; [rewrite <- Hnorm; apply replace_no_backslash |].
  split; [| exact Hacc].
  rewrite !all_chars_app, Hmid.
  destruct Hext as [-> | [-> | ->]]; reflexivity.
Qed.

Lemma listed_paths_are_test_files_witness :
  result_of (getChangedTests Sample.pull_request_run)
    = Returned Sample.pull_request_result /\
  In "test/production/export/bar.test.js" (prodTests Sample.pull_request_result) /\
  no_backslash "test/production/export/bar.test.js" = true /\
  accessible Sample.pull_request_run "test/production/export/bar.test.js" = true.
Proof.
  assert (Hr : result_of (getChangedTests Sample.pull_request_run)
               = Returned Sample.pull_request_result) by (vm_compute; reflexivity).
  assert (Hin : In "test/production/export/bar.test.js"
                  (prodTests Sample.pull_request_result))
    by (cbn; tauto).
  split; [exact Hr |]. split; [exact Hin |].
  destruct (@listed_paths_are_test_files Sample.pull_request_run
              Sample.pull_request_result "test/production/export/bar.test.js"
              Hr (or_intror Hin)) as (_ & Hnb & _ & Hacc).
  split; assumption.
Defined.

(** X2.  Every entry of [devTests] starts with "test/e2e/" or with
    "test/development", and every entry of [prodTests] with "test/e2e/" or
    with "test/prod". *)
Theorem listed_paths_prefixes
    (w : world) (r : ClassificationResult) (x : string) :
  result_of (getChangedTests w) = Returned r ->
  (In x (devTests r) ->
   Str.startsWith x "test/e2e/" = true \/ Str.startsWith x "test/development" = true) /\
  (In x (prodTests r) ->
   Str.startsWith x "test/e2e/" = true \/ Str.startsWith x "test/prod" = true).
Proof.
  intros Hr.
  destruct (returned_cases w Hr) as [[_ ->] | (-> & -> & _)].
  - cbn. tauto.
  - split; intros Hx.
    + apply kept_dev in Hx as (_ & _ & Hrule). revert Hrule.
      unfold to_dev, rule_of.
      destruct (Str.startsWith x "test/e2e/"); [now left |].
      destruct (Str.startsWith x "test/prod"); [discriminate |].
      destruct (Str.startsWith x "test/development"); [now right | discriminate].
    + apply kept_prod in Hx as (_ & _ & Hrule). revert Hrule.
      unfold to_prod, rule_of.
      destruct (Str.startsWith x "test/e2e/"); [now left |].
      destruct (Str.startsWith x "test/prod"); [now right |].
      destruct (Str.startsWith x "test/development"); discriminate.
Qed.

Lemma listed_paths_prefixes_witness :
  result_of (getChangedTests Sample.pull_request_run)
    = Returned Sample.pull_request_result /\
  In "test/developments/hmr/y.test.ts" (devTests Sample.pull_request_result) /\
  (Str.startsWith "test/developments/hmr/y.test.ts" "test/e2e/" = true \/
   Str.startsWith "test/developments/hmr/y.test.ts" "test/development" = true).
Proof.
  assert (Hr : result_of (getChangedTests Sample.pull_request_run)
               = Returned Sample.pull_request_result) by (vm_compute; reflexivity).
  assert (Hin : In "test/developments/hmr/y.test.ts"
                  (devTests Sample.pull_request_result))
    by (cbn; tauto).
  split; [exact Hr |]. split; [exact Hin |].
  exact (proj1 (@listed_paths_prefixes Sample.pull_request_run
                  Sample.pull_request_result "test/developments/hmr/y.test.ts" Hr) Hin).
Defined.

(** X3.  What the two lists share is their end-to-end tests: a path in
    both lists starts with "test/e2e/", and the entries under "test/e2e/"
    are the same in both lists, in the same order. *)
Theorem common_entries_are_e2e (w : world) (r : ClassificationResult) :
  result_of (getChangedTests w) = Returned r ->
  filter (fun file => Str.startsWith file "test/e2e/") (devTests r)
    = filter (fun file => Str.startsWith file "test/e2e/") (prodTests r) /\
  (forall x, In x (devTests r) -> In x (prodTests r) ->
             Str.startsWith x "test/e2e/" = true).
Proof.
  intros Hr.
  destruct (returned_cases w Hr) as [[_ ->] | (-> & -> & _)].
  - split; [reflexivity | intros x []].
  - split.
    + rewrite !filter_filter. apply filter_ext. intros x.
      unfold to_dev, to_prod, rule_of.
      destruct (Str.startsWith x "test/e2e/");
        [reflexivity | now rewrite !andb_false_r].
    + intros x Hd Hp.
      apply kept_dev in Hd as (_ & _ & Hd). apply kept_prod in Hp as (_ & _ & Hp).
      revert Hd Hp. unfold to_dev, to_prod, rule_of.
      destruct (Str.startsWith x "test/e2e/"); [reflexivity |].
      destruct (Str.startsWith x "test/prod"); [discriminate |].
      destruct (Str.startsWith x "test/development"); discriminate.
Qed.

Lemma common_entries_are_e2e_witness :
  result_of (getChangedTests Sample.pull_request_run)
    = Returned Sample.pull_request_result /\
  filter (fun file => Str.startsWith file "test/e2e/")
    (devTests Sample.pull_request_result)
  = filter (fun file => Str.startsWith file "test/e2e/")
      (prodTests Sample.pull_request_result).
Proof.
  assert (Hr : result_of (getChangedTests Sample.pull_request_run)
               = Returned Sample.pull_request_result) by (vm_compute; reflexivity).
  split; [exact Hr |].
  exact (proj1 (@common_entries_are_e2e Sample.pull_request_run
                  Sample.pull_request_result Hr)).
Defined.

(** X4.  The only errors that reach the caller are the failure of one of
    the three context commands, the failure of [git remote -v] in the fetch
    handler, and the type errors of [trim] and [includes] on a payload value
    that is not a string: never a failure to read or parse the event file,
    and never a failure of the fetch commands or of the diff. *)
Theorem thrown_errors (w : world) (e : exn) :
  result_of (getChangedTests w) = Threw e ->
  e = ExecaError "git rev-parse --abbrev-ref HEAD" \/
  e = ExecaError "git remote get-url origin" \/
  e = ExecaError "git rev-parse HEAD" \/
  e = TypeError "trim" \/
  e = TypeError "includes" \/
  e = ExecaError "git remote -v".
Proof.
  rewrite getChangedTests_run.
  pose proof (resolve_context_result w) as Hctx.
  destruct (resolve_context w) as [t1 o]. cbn [result_of snd] in Hctx. subst o.
  destruct (chain_outcome w [payload_ref _; _] _) as [branchName | e1] eqn:E1;
    [| intros [= <-]; apply chain_outcome_threw in E1; tauto].
  destruct (chain_outcome w [payload_full_name _; _] _) as [remoteUrl | e2] eqn:E2;
    [| intros [= <-]; apply chain_outcome_threw in E2; tauto].
  destruct (chain_outcome w [payload_sha _; _] _) as [sha | e3] eqn:E3;
    [| intros [= <-]; apply chain_outcome_threw in E3; tauto].
  assert (Hcanary : forall e', result_of (compute_isCanary branchName remoteUrl) = Threw e' ->
                               e' = TypeError "trim" \/ e' = TypeError "includes").
  { unfold compute_isCanary, call_trim, call_includes.
    destruct branchName; run_monad; cbn [result_of snd];
      try (intros e' [= <-]; now left).
    destruct (String.eqb _ _); [| discriminate].
    destruct remoteUrl; cbn [result_of snd];
      try discriminate; intros e' [= <-]; now right. }
  destruct (result_of (compute_isCanary branchName remoteUrl)) as [[] | e'];
    [discriminate | | intros [= <-]; destruct (Hcanary _ eq_refl); tauto].
  rewrite fetch_canary_run. cbv zeta.
  destruct (command_outcome w "git remote set-branches --add origin canary");
    destruct (command_outcome w "git fetch origin canary --depth=20");
    destruct (command_outcome w "git remote -v");
    cbn [result_of snd]; try discriminate; intros [= <-]; tauto.
Qed.

Lemma thrown_errors_witness :
  result_of (getChangedTests Sample.not_a_checkout_run)
    = Threw (ExecaError "git remote -v") /\
  (ExecaError "git remote -v" = ExecaError "git rev-parse --abbrev-ref HEAD" \/
   ExecaError "git remote -v" = ExecaError "git remote get-url origin" \/
   ExecaError "git remote -v" = ExecaError "git rev-parse HEAD" \/
   ExecaError "git remote -v" = TypeError "trim" \/
   ExecaError "git remote -v" = TypeError "includes" \/
   ExecaError "git remote -v" = ExecaError "git remote -v").
Proof.
  split; [reflexivity |].
  apply (@thrown_errors Sample.not_a_checkout_run (ExecaError "git remote -v")).
  reflexivity.
Defined.

(** X5.  The git commands of context resolution are fallbacks of last
    resort: each is run exactly when its payload field and its environment
    variable are both empty and the chains before it did not throw.  With
    the three CI variables set, none of them is run. *)
Theorem context_commands_are_lazy (w : world) :
  ran "git rev-parse --abbrev-ref HEAD" (getChangedTests w)
  = negb (truthy (payload_ref (eventData_of w))
          || truthy (process_env w "GITHUB_REF_NAME")) /\
  ran "git remote get-url origin" (getChangedTests w)
  = resolvable w (payload_ref (eventData_of w)) "GITHUB_REF_NAME"
      "git rev-parse --abbrev-ref HEAD"
    && negb (truthy (payload_full_name (eventData_of w))
             || truthy (process_env w "GITHUB_REPOSITORY")) /\
  ran "git rev-parse HEAD" (getChangedTests w)
  = resolvable w (payload_ref (eventData_of w)) "GITHUB_REF_NAME"
      "git rev-parse --abbrev-ref HEAD"
    && resolvable w (payload_full_name (eventData_of w)) "GITHUB_REPOSITORY"
         "git remote get-url origin"
    && negb (truthy (payload_sha (eventData_of w))
             || truthy (process_env w "GITHUB_SHA")).
Proof.
  rewrite !ran_getChangedTests.
  rewrite !ran_fetch_canary_context by reflexivity.
  cbn [String.eqb Ascii.eqb Bool.eqb diff_command orb andb].
  rewrite !andb_false_r, !orb_false_r.
  unfold ran. rewrite resolve_context_trace.
  unfold chain_trace, resolvable, succeeds.
  destruct (truthy (payload_ref _)), (truthy (process_env w "GITHUB_REF_NAME")),
    (command_outcome w "git rev-parse --abbrev-ref HEAD");
  destruct (truthy (payload_full_name _)), (truthy (process_env w "GITHUB_REPOSITORY")),
    (command_outcome w "git remote get-url origin");
  destruct (truthy (payload_sha _)), (truthy (process_env w "GITHUB_SHA"));
  repeat split; reflexivity.
Qed.

Lemma accessed_before_fetch (t : list event) :
  forallb before_fetch t = true -> accessed t = [].
Proof.
  induction t as [|e t IH]; [reflexivity |].
  cbn [forallb]. intros [He Ht]%andb_prop.
  unfold accessed in *. cbn [flat_map]. rewrite (IH Ht).
  destruct e; try reflexivity. discriminate He.
Qed.

Lemma accessed_map_Access (files : list string) : accessed (map Access files) = files.
Proof.
  unfold accessed. induction files as [|f files IH]; [reflexivity |].
  cbn [map flat_map app]. now rewrite IH.
Qed.

Lemma accessed_fetch_canary (w : world) : accessed (trace (fetch_canary w)) = [].
Proof.
  rewrite fetch_canary_run. cbv zeta.
  destruct (command_outcome w "git remote set-branches --add origin canary");
    destruct (command_outcome w "git fetch origin canary --depth=20");
    destruct (command_outcome w "git remote -v"); reflexivity.
Qed.

(** X6.  Once the diff has been run, the existence of every line of its
    output is checked, once and in order, test file or not; a run that
    does not get to the diff checks no file at all. *)
Theorem existence_checks_follow_diff (w : world) :
  accessed (trace (getChangedTests w)) =
  if ran diff_command (getChangedTests w) then changedFiles_of w else [].
Proof.
  rewrite ran_diff, getChangedTests_run. unfold reaches_fetch, returnsb.
  pose proof (resolve_context_before_fetch w) as Hctx.
  destruct (resolve_context w) as [t1 [[[branchName remoteUrl] sha] | e]];
    cbn [trace fst] in Hctx |- *; [| now apply accessed_before_fetch].
  destruct (result_of (compute_isCanary branchName remoteUrl)) as [[] | e];
    cbn [trace fst andb].
  - unfold accessed. rewrite flat_map_app.
    fold (accessed t1). now rewrite accessed_before_fetch.
  - pose proof (accessed_fetch_canary w) as Hfetch.
    destruct (fetch_canary w) as [t2 [[] | e]];
      cbn [trace fst result_of snd] in Hfetch |- *.
    + rewrite diff_canary_run. cbn [trace fst].
      unfold accessed in *. rewrite !flat_map_app. cbn [flat_map].
      rewrite !flat_map_app.
      fold (accessed t1). rewrite (accessed_before_fetch _ Hctx), Hfetch.
      fold (accessed (map Access (changedFiles_of w))).
      rewrite accessed_map_Access.
      destruct (command_outcome w diff_command); cbn; now rewrite app_nil_r.
    + unfold accessed in *. rewrite flat_map_app, Hfetch.
      fold (accessed t1). now rewrite accessed_before_fetch.
  - now apply accessed_before_fetch.
Qed.

(** X7.  A diff that fails counts as a diff without output: the run ends
    the same way, the loop sees the single empty path, and both lists of a
    returned result are empty. *)
Theorem failed_diff_is_empty_diff (w : world) :
  result_of (getChangedTests (with_diff w None))
  = result_of (getChangedTests (with_diff w (Some {| stdout := ""; stderr := "" |}))) /\
  changedFiles_of (with_diff w None) = [""] /\
  (forall r, result_of (getChangedTests (with_diff w None)) = Returned r ->
             devTests r = [] /\ prodTests r = []).
Proof.
  split; [| split; [reflexivity |]].
  - rewrite !getChangedTests_run, !resolve_context_with_diff, !fetch_canary_with_diff.
    destruct (resolve_context w) as [t1 [[[branchName remoteUrl] sha] | e]];
      [| reflexivity].
    destruct (result_of (compute_isCanary branchName remoteUrl)) as [[] | e];
      try reflexivity.
    destruct (fetch_canary w) as [t2 [[] | e]]; reflexivity.
  - intros r Hr.
    destruct (returned_cases _ Hr) as [[_ ->] | (-> & -> & _)]; [now split |].
    change (changedFiles_of (with_diff w None)) with [""].
    unfold candidate. cbn [filter].
    change (Re.matches test_file_pattern "") with false.
    now rewrite !andb_false_r.
Qed.

Lemma failed_diff_is_empty_diff_witness :
  result_of (getChangedTests (with_diff Sample.pull_request_run None))
  = Returned {| devTests := []; prodTests := []; commitSha := Some (VStr "0a1b2c3d") |} /\
  devTests {| devTests := []; prodTests := []; commitSha := Some (VStr "0a1b2c3d") |} = [] /\
  prodTests {| devTests := []; prodTests := []; commitSha := Some (VStr "0a1b2c3d") |} = [].
Proof.
  assert (Hr : result_of (getChangedTests (with_diff Sample.pull_request_run None))
               = Returned {| devTests := []; prodTests := [];
                             commitSha := Some (VStr "0a1b2c3d") |})
    by (vm_compute; reflexivity).
  split; [exact Hr |].
  exact (proj2 (proj2 (failed_diff_is_empty_diff Sample.pull_request_run)) _ Hr).
Defined.

(** X8.  A resolved branch name that is not a string, which only a
    malformed event payload can supply, makes [trim] fail: the run throws a
    type error right after context resolution, before any fetch. *)
Theorem non_string_branch_throws
    (w : world) (t : list event) (branchName remoteUrl sha : value) :
  resolve_context w = (t, Returned (branchName, remoteUrl, sha)) ->
  is_string branchName = false ->
  getChangedTests w = (t, Threw (TypeError "trim")).
Proof.
  intros Hctx Hstr. rewrite getChangedTests_run, Hctx.
  destruct branchName; try discriminate Hstr; reflexivity.
Qed.

Lemma non_string_branch_throws_witness :
  resolve_context Edge.numeric_ref_run
  = ([ReadFile "/github/workflow/event.json"],
     Returned (VNum (inject_Z 7), VStr "contributor/next.js", VStr "13579bdf")) /\
  is_string (VNum (inject_Z 7)) = false /\
  getChangedTests Edge.numeric_ref_run
  = ([ReadFile "/github/workflow/event.json"], Threw (TypeError "trim")).
Proof.
  split; [reflexivity |]. split; [reflexivity |].
  apply (@non_string_branch_throws Edge.numeric_ref_run
           [ReadFile "/github/workflow/event.json"]
           (VNum (inject_Z 7)) (VStr "contributor/next.js") (VStr "13579bdf"));
    reflexivity.
Defined.

(** X9.  A returned result carries a commit hash exactly when the diff was
    run, and the hash is then the one context resolution settled on; a
    result without a hash is the canary notice's, with both lists empty. *)
Theorem commitSha_is_resolved (w : world) (r : ClassificationResult) :
  result_of (getChangedTests w) = Returned r ->
  match commitSha r with
  | Some sha =>
      ran diff_command (getChangedTests w) = true /\
      chain_outcome w [payload_sha (eventData_of w); process_env w "GITHUB_SHA"]
        "git rev-parse HEAD" = Returned sha
  | None =>
      ran diff_command (getChangedTests w) = false /\
      devTests r = [] /\ prodTests r = []
  end.
Proof.
  rewrite ran_diff, getChangedTests_run. unfold reaches_fetch, returnsb.
  pose proof (resolve_context_result w) as Hctx.
  destruct (resolve_context w) as [t1 [[[branchName remoteUrl] sha] | e]];
    [| discriminate].
  cbn [result_of snd] in Hctx.
  assert (Hsha : chain_outcome w [payload_sha (eventData_of w); process_env w "GITHUB_SHA"]
                   "git rev-parse HEAD" = Returned sha).
  { destruct (chain_outcome w [payload_ref _; _] _); [| discriminate].
    destruct (chain_outcome w [payload_full_name _; _] _); [| discriminate].
    destruct (chain_outcome w [payload_sha _; _] _); [| discriminate].
    now injection Hctx as _ _ ->. }
  destruct (result_of (compute_isCanary branchName remoteUrl)) as [[] | e];
    [| | discriminate].
  - intros [= <-]. cbn. now repeat split.
  - destruct (fetch_canary w) as [t2 [[] | e]]; [| discriminate].
    intros [= <-]. cbn. now split.
Qed.

Lemma commitSha_is_resolved_witness :
  result_of (getChangedTests Sample.pull_request_run)
    = Returned Sample.pull_request_result /\
  ran diff_command (getChangedTests Sample.pull_request_run) = true /\
  chain_outcome Sample.pull_request_run
    [payload_sha (eventData_of Sample.pull_request_run);
     process_env Sample.pull_request_run "GITHUB_SHA"]
    "git rev-parse HEAD" = Returned (VStr "0a1b2c3d").
Proof.
  assert (Hr : result_of (getChangedTests Sample.pull_request_run)
               = Returned Sample.pull_request_result) by (vm_compute; reflexivity).
  split; [exact Hr |].
  exact (@commitSha_is_resolved Sample.pull_request_run Sample.pull_request_result Hr).
Defined.

(** X10.  The last thing a returning run does is print: the canary notice
    when the diff was not run, else the very two lists it returns. *)
Theorem last_event_is_the_report (w : world) (r : ClassificationResult) :
  result_of (getChangedTests w) = Returned r ->
  exists t,
    trace (getChangedTests w) =
    t ++ [if ran diff_command (getChangedTests w)
          then ConsoleLog [AStr "Detected tests:";
                           AStringified (devTests r) (prodTests r)]
          else ConsoleLog [AStr "Skipping flake detection for canary"]].
Proof.
  rewrite ran_diff, getChangedTests_run. unfold reaches_fetch, returnsb.
  destruct (resolve_context w) as [t1 [[[branchName remoteUrl] sha] | e]];
    [| discriminate].
  destruct (result_of (compute_isCanary branchName remoteUrl)) as [[] | e];
    [| | discriminate].
  - intros [= <-]. now exists t1.
  - destruct (fetch_canary w) as [t2 [[] | e]]; [| discriminate].
    intros [= <-]. cbn [trace fst result_of snd andb devTests prodTests].
    eexists (t1 ++ t2 ++ trace (diff_canary w) ++ _ :: map Access (changedFiles_of w)).
    rewrite <- !app_assoc. cbn [app]. reflexivity.
Qed.

Lemma last_event_is_the_report_witness :
  result_of (getChangedTests Sample.canary_run)
    = Returned {| devTests := []; prodTests := []; commitSha := None |} /\
  exists t,
    trace (getChangedTests Sample.canary_run) =
    t ++ [ConsoleLog [AStr "Skipping flake detection for canary"]].
Proof.
  assert (Hr : result_of (getChangedTests Sample.canary_run)
               = Returned {| devTests := []; prodTests := []; commitSha := None |})
    by reflexivity.
  split; [exact Hr |].
  exact (@last_event_is_the_report Sample.canary_run _ Hr).
Defined.

(** X11.  Past the canary test the commands come in sequence: the baseline
    branch is always registered; the fetch is run only if that succeeded;
    [git remote -v] is run exactly when one of the two failed; and the diff
    is run when both succeeded or the failure could be reported. *)
Theorem fetch_commands_in_sequence (w : world) :
  let set_branches := "git remote set-branches --add origin canary" in
  let fetch := "git fetch origin canary --depth=20" in
  ran set_branches (getChangedTests w) = reaches_fetch w /\
  ran fetch (getChangedTests w) = reaches_fetch w && succeeds w set_branches /\
  ran "git remote -v" (getChangedTests w)
  = reaches_fetch w && negb (succeeds w set_branches && succeeds w fetch) /\
  ran diff_command (getChangedTests w)
  = reaches_fetch w
    && (succeeds w set_branches && succeeds w fetch || succeeds w "git remote -v").
Proof.
  cbv zeta. rewrite ran_diff, !ran_getChangedTests.
  rewrite !ran_resolve_context_later by reflexivity.
  unfold ran, returnsb, succeeds. rewrite fetch_canary_run. cbv zeta.
  destruct (reaches_fetch w);
    destruct (command_outcome w "git remote set-branches --add origin canary");
    destruct (command_outcome w "git fetch origin canary --depth=20");
    destruct (command_outcome w "git remote -v");
    repeat split; reflexivity.
Qed.



Lemma split_lines_nonempty s : Str.split_lines s <> [].
Proof.
  destruct s as [|c s]; cbn [Str.split_lines]; [discriminate |].
  destruct (Ascii.eqb c "010"); [discriminate |].
  destruct (Str.split_lines s); discriminate.
Qed.

Lemma concat_split_lines s : String.concat newline (Str.split_lines s) = s.
Proof.
  induction s as [|c s IH]; [reflexivity |].
  cbn [Str.split_lines].
  pose proof (split_lines_nonempty s) as Hne.
  destruct (Ascii.eqb c "010") eqn:E.
  - apply Ascii.eqb_eq in E. subst c.
    destruct (Str.split_lines s) as [|piece pieces]; [now elim Hne |].
    change (String.concat newline (EmptyString :: piece :: pieces))
      with (String "010" (String.concat newline (piece :: pieces))).
    now rewrite IH.
  - destruct (Str.split_lines s) as [|piece pieces].
    + cbn in IH |- *. now subst s.
    + destruct pieces as [|piece' pieces]; cbn in IH |- *; now rewrite IH.
Qed.

Lemma split_lines_no_line_feed s :
  Forall (fun piece => no_line_feed piece = true) (Str.split_lines s).
Proof.
  unfold no_line_feed.
  induction s as [|c s IH]; cbn [Str.split_lines]; [now repeat constructor |].
  destruct (Ascii.eqb c "010") eqn:E; [now constructor |].
  destruct (Str.split_lines s) as [|piece pieces].
  - repeat constructor. cbn. now rewrite E.
  - inversion IH as [|? ? Hpiece Hpieces]; subst.
    constructor; [| assumption]. cbn. now rewrite E, Hpiece.
Qed.

(** X13.  Splitting loses nothing: the changed paths joined by line feeds
    are the diff output with its slashes normalised; there is always at
    least one of them, and none holds a line feed or a backslash. *)
Theorem changed_files_join (w : world) :
  String.concat newline (changedFiles_of w)
  = Str.replace_backslashes (stdout (changesResult_of w)) /\
  changedFiles_of w <> [] /\
  Forall (fun file => no_line_feed file = true /\ no_backslash file = true)
    (changedFiles_of w).
Proof.
  unfold changedFiles_of.
  rewrite <- StrFacts.split_lines_replace.
  split; [apply concat_split_lines |].
  split; [apply split_lines_nonempty |].
  { pose proof (split_lines_no_line_feed
                  (Str.replace_backslashes (stdout (changesResult_of w)))) as Hlf.
    rewrite StrFacts.split_lines_replace in Hlf |- *.
    rewrite Forall_forall in Hlf |- *.
    intros file Hin. split; [now apply Hlf |].
    apply in_map_iff in Hin as (raw & <- & _). apply replace_no_backslash. }
Qed.

(** X14.  What the diff writes to its standard error is only ever printed:
    it has no part in how the run ends. *)
Theorem diff_stderr_is_only_logged (w : world) (out : exec_result) (err : string) :
  result_of (getChangedTests (with_diff w (Some out)))
  = result_of (getChangedTests
                 (with_diff w (Some {| stdout := stdout out; stderr := err |}))).
Proof.
  rewrite !getChangedTests_run, !resolve_context_with_diff, !fetch_canary_with_diff.
  destruct (resolve_context w) as [t1 [[[branchName remoteUrl] sha] | e]];
    [| reflexivity].
  destruct (result_of (compute_isCanary branchName remoteUrl)) as [[] | e];
    try reflexivity.
  destruct (fetch_canary w) as [t2 [[] | e]]; reflexivity.
Qed.

Lemma split_lines_app s1 s2 :
  Str.split_lines (s1 ++ String "010" s2)%string
  = Str.split_lines s1 ++ Str.split_lines s2.
Proof.
  induction s1 as [|c s1 IH]; [reflexivity |].
  cbn [String.append Str.split_lines]. rewrite IH.
  destruct (Ascii.eqb c "010"); [reflexivity |].
  pose proof (split_lines_nonempty s1) as Hne.
  destruct (Str.split_lines s1); [now elim Hne | reflexivity].
Qed.

(** X15.  Classification goes line by line: for a diff output made of two
    outputs joined by a line feed, each returned list is the list for the
    first output followed by the list for the second, and the commit hash
    is the same. *)
Theorem classification_of_joined_diffs
    (w : world) (out1 out2 : string) (r1 r2 r : ClassificationResult) :
  result_of (getChangedTests (with_diff w (Some {| stdout := out1; stderr := "" |})))
    = Returned r1 ->
  result_of (getChangedTests (with_diff w (Some {| stdout := out2; stderr := "" |})))
    = Returned r2 ->
  result_of (getChangedTests
               (with_diff w (Some {| stdout := (out1 ++ String "010" out2)%string;
                                     stderr := "" |})))
    = Returned r ->
  devTests r = devTests r1 ++ devTests r2 /\
  prodTests r = prodTests r1 ++ prodTests r2 /\
  commitSha r = commitSha r1.
Proof.
  rewrite !getChangedTests_run, !resolve_context_with_diff, !fetch_canary_with_diff.
  destruct (resolve_context w) as [t1 [[[branchName remoteUrl] sha] | e]];
    [| discriminate].
  destruct (result_of (compute_isCanary branchName remoteUrl)) as [[] | e];
    [| | discriminate].
  - intros [= <-] [= <-] [= <-]. now repeat split.
  - destruct (fetch_canary w) as [t2 [[] | e]]; [| discriminate].
    intros [= <-] [= <-] [= <-]. cbn [devTests prodTests commitSha].
    rewrite !changedFiles_with_diff. cbn [stdout].
    rewrite split_lines_app, map_app, !filter_app.
    now repeat split.
Qed.

Lemma classification_of_joined_diffs_witness :
  result_of (getChangedTests
               (with_diff Sample.examples_run
                  (Some {| stdout := "test/e2e/foo.test.ts"; stderr := "" |})))
  = Returned {| devTests := ["test/e2e/foo.test.ts"];
                prodTests := ["test/e2e/foo.test.ts"];
                commitSha := Some (VStr "76543210") |} /\
  result_of (getChangedTests
               (with_diff Sample.examples_run
                  (Some {| stdout := "test/prod/bar.test.js"; stderr := "" |})))
  = Returned {| devTests := [];
                prodTests := ["test/prod/bar.test.js"];
                commitSha := Some (VStr "76543210") |} /\
  result_of (getChangedTests
               (with_diff Sample.examples_run
                  (Some {| stdout := ("test/e2e/foo.test.ts"
                                        ++ String "010" "test/prod/bar.test.js")%string;
                           stderr := "" |})))
  = Returned {| devTests := ["test/e2e/foo.test.ts"];
                prodTests := ["test/e2e/foo.test.ts"; "test/prod/bar.test.js"];
                commitSha := Some (VStr "76543210") |} /\
  prodTests {| devTests := ["test/e2e/foo.test.ts"];
               prodTests := ["test/e2e/foo.test.ts"; "test/prod/bar.test.js"];
               commitSha := Some (VStr "76543210") |}
  = ["test/e2e/foo.test.ts"] ++ ["test/prod/bar.test.js"].
Proof.
  assert (H1 : result_of (getChangedTests
                 (with_diff Sample.examples_run
                    (Some {| stdout := "test/e2e/foo.test.ts"; stderr := "" |})))
               = Returned {| devTests := ["test/e2e/foo.test.ts"];
                             prodTests := ["test/e2e/foo.test.ts"];
                             commitSha := Some (VStr "76543210") |})
    by (vm_compute; reflexivity).
  assert (H2 : result_of (getChangedTests
                 (with_diff Sample.examples_run
                    (Some {| stdout := "test/prod/bar.test.js"; stderr := "" |})))
               = Returned {| devTests := [];
                             prodTests := ["test/prod/bar.test.js"];
                             commitSha := Some (VStr "76543210") |})
    by (vm_compute; reflexivity).
  assert (H : result_of (getChangedTests
                 (with_diff Sample.examples_run
                    (Some {| stdout := ("test/e2e/foo.test.ts"
                                          ++ String "010" "test/prod/bar.test.js")%string;
                             stderr := "" |})))
              = Returned {| devTests := ["test/e2e/foo.test.ts"];
                            prodTests := ["test/e2e/foo.test.ts"; "test/prod/bar.test.js"];
                            commitSha := Some (VStr "76543210") |})
    by (vm_compute; reflexivity).
  split; [exact H1 |]. split; [exact H2 |]. split; [exact H |].
  exact (proj1 (proj2 (classification_of_joined_diffs Sample.examples_run _ _ H1 H2 H))).
Defined.
